(** * A shallow embedding of [keycloak_api_client/api_client.py]

    The client is a sequence of blocking request/response wrappers around
    the Keycloak admin REST API.  The embedding keeps the shape of the
    Python source:

    - decoded JSON bodies are values of [JSON]; Python's [None] is the
      decoded JSON [null], so an "optional dict" is a [JSON] that may be
      [JNull];
    - the only mutable field of the instance, [admin_user_access_token],
      lives in the state that every method threads, next to the list of
      the HTTP requests issued so far;
    - exceptions are the error half of the result of a method;
    - the remote side is a function from the requests seen so far and the
      current request to a response, so that a server may answer the same
      request differently over time.

    JSON numbers are integers here.  The transport delivers a response to
    every request; its body need not be JSON, in which case decoding it
    raises. *)

From Stdlib Require Import String Ascii List ZArith Bool Lia.
Import ListNotations.
Local Open Scope list_scope.
Local Open Scope string_scope.

(** ** Decoded JSON and the Python operations the client applies to it *)

#[warnings="-register-all"]
Inductive JSON : Type :=
| JNull
| JBool (b : bool)
| JNum (z : Z)
| JString (s : string)
| JArray (items : list JSON)
| JObject (fields : list (string * JSON)).

(** Python's exceptions, as far as the client can meet them. *)
Inductive exn : Type :=
| KeycloakApiClientException (msg : string)
| KeyError (key : string)
| TypeError
| ValueError
| JSONDecodeError.

Inductive result (A : Type) : Type :=
| Ok (a : A)
| Raise (e : exn).
Arguments Ok {A} a.
Arguments Raise {A} e.

Fixpoint assoc {V : Type} (k : string) (kvs : list (string * V)) : option V :=
  match kvs with
  | [] => None
  | (k', v) :: rest => if String.eqb k' k then Some v else assoc k rest
  end.

(** [bool(x)]: [None], [False], [0], the empty string, list and dict are
    false, everything else is true. *)
Definition py_truthy (j : JSON) : bool :=
  match j with
  | JNull => false
  | JBool b => b
  | JNum z => negb (Z.eqb z 0)
  | JString s => negb (String.eqb s "")
  | JArray l => match l with [] => false | _ => true end
  | JObject kvs => match kvs with [] => false | _ => true end
  end.

(** [x[key]] with a [str] key: only a dict accepts it. *)
Definition py_getitem (j : JSON) (key : string) : result JSON :=
  match j with
  | JObject kvs =>
      match assoc key kvs with
      | Some v => Ok v
      | None => Raise (KeyError key)
      end
  | _ => Raise TypeError
  end.

Fixpoint chars (s : string) : list JSON :=
  match s with
  | EmptyString => []
  | String c rest => JString (String c EmptyString) :: chars rest
  end.

(** [len(x)]. *)
Definition py_len (j : JSON) : result nat :=
  match j with
  | JArray l => Ok (List.length l)
  | JObject kvs => Ok (List.length kvs)
  | JString s => Ok (String.length s)
  | _ => Raise TypeError
  end.

(** [for item in x]: a list yields its items, a dict its keys, a string
    its characters. *)
Definition py_iter (j : JSON) : result (list JSON) :=
  match j with
  | JArray l => Ok l
  | JObject kvs => Ok (map (fun kv => JString (fst kv)) kvs)
  | JString s => Ok (chars s)
  | _ => Raise TypeError
  end.

(** [x == s] for a [str] [s]. *)
Definition py_eq_str (j : JSON) (s : string) : bool :=
  match j with
  | JString s' => String.eqb s' s
  | _ => false
  end.

(** Dict keys: only scalars hash; [True == 1] and [False == 0]. *)
Definition py_hashable (j : JSON) : bool :=
  match j with
  | JArray _ | JObject _ => false
  | _ => true
  end.

Definition py_key_eqb (a b : JSON) : bool :=
  match a, b with
  | JNull, JNull => true
  | JBool x, JBool y => Bool.eqb x y
  | JNum x, JNum y => Z.eqb x y
  | JString x, JString y => String.eqb x y
  | JBool x, JNum y | JNum y, JBool x => Z.eqb y (if x then 1 else 0)
  | _, _ => false
  end.

(** A Python dict with scalar keys, in insertion order. *)
Definition pydict : Type := list (JSON * JSON).

Fixpoint dict_set (k v : JSON) (d : pydict) : pydict :=
  match d with
  | [] => [(k, v)]
  | (k', v') :: rest =>
      if py_key_eqb k' k then (k', v) :: rest else (k', v') :: dict_set k v rest
  end.

(** [s in d] for a [str] [s]. *)
Definition dict_contains (s : string) (d : pydict) : bool :=
  existsb (fun kv => py_eq_str (fst kv) s) d.

(** ** HTTP requests and responses, as [requests] shows them *)

Inductive Method : Type := GET | POST | PUT.

Inductive Body : Type :=
| NoBody
| FormData (fields : list (string * JSON))
| JsonData (payload : JSON).

Record Request : Type := mkRequest {
  method : Method;
  url : string;
  data : Body;
  headers : list (string * string)
}.

Record Response : Type := mkResponse {
  status_code : Z;
  json_body : option JSON;   (* the body read as JSON, [None] when it is none *)
  response_headers : list (string * string)
}.

(** [response.json()]: the decoded body, or the error of decoding it. *)
Definition json (r : Response) : result JSON :=
  match json_body r with
  | Some j => Ok j
  | None => Raise JSONDecodeError
  end.

(** [Response.ok]: [raise_for_status] raises exactly for 400..599. *)
Definition ok (r : Response) : bool :=
  negb (Z.leb 400 (status_code r) && Z.ltb (status_code r) 600).

Definition NOT_FOUND : Z := 404.

Definition lower_ascii (c : ascii) : ascii :=
  let n := nat_of_ascii c in
  if Nat.leb 65 n && Nat.leb n 90 then ascii_of_nat (n + 32) else c.

Fixpoint lower (s : string) : string :=
  match s with
  | EmptyString => EmptyString
  | String c rest => String (lower_ascii c) (lower rest)
  end.

(** [response.headers[name]]: the header dict ignores case, and looks the
    lowered name up. *)
Fixpoint header_get (name : string) (hs : list (string * string)) : result string :=
  match hs with
  | [] => Raise (KeyError (lower name))
  | (k, v) :: rest =>
      if String.eqb (lower k) (lower name) then Ok v else header_get name rest
  end.

(** [s.split('/')[-1]]: what follows the last ['/']. *)
Fixpoint last_segment_from (acc s : string) : string :=
  match s with
  | EmptyString => acc
  | String c rest =>
      if Ascii.eqb c "/"%char then last_segment_from EmptyString rest
      else last_segment_from (acc ++ String c EmptyString) rest
  end.

Definition last_segment (s : string) : string := last_segment_from EmptyString s.

(** ** Data classes

    [data_classes.py] and [factories.py] are not part of the sources at
    hand; the fields are those the client reads. *)

(** Modelled from the spec: a federated identity link is a provider name
    (the key of the link), a remote user id and a remote user name.  The
    last two are passed to the JSON body untouched. *)
Record KeycloakFederatedIdentity : Type := mkIdentity {
  provider_name : string;
  user_id : JSON;
  user_name : JSON
}.

(** Modelled from the spec: the token pair returned by the token exchange. *)
Record KeycloakTokens : Type := mkTokens {
  access_token : JSON;
  refresh_token : JSON
}.

(** [Optional[str]] and [Optional[List[...]]] in a condition. *)
Definition truthy_str (o : option string) : bool :=
  match o with
  | Some s => negb (String.eqb s "")
  | None => false
  end.

Definition truthy_list {A : Type} (o : option (list A)) : bool :=
  match o with
  | Some (_ :: _) => true
  | _ => false
  end.

(** ** The state a method runs in, and the monad of methods *)

Record State : Type := mkState {
  admin_user_access_token : JSON;   (* [None] until the first grant *)
  trace : list Request              (* requests issued so far, oldest first *)
}.

Definition M (A : Type) : Type := State -> result A * State.

Definition ret {A : Type} (a : A) : M A := fun st => (Ok a, st).

Definition raise {A : Type} (e : exn) : M A := fun st => (Raise e, st).

Definition bind {A B : Type} (c : M A) (k : A -> M B) : M B :=
  fun st =>
    match c st with
    | (Ok a, st') => k a st'
    | (Raise e, st') => (Raise e, st')
    end.

Definition lift {A : Type} (r : result A) : M A := fun st => (r, st).

Notation "x <- c ;; k" := (bind c (fun x => k))
  (at level 61, c at next level, right associativity).
Notation "c ;;; k" := (bind c (fun _ => k))
  (at level 61, right associativity).

Definition get_token_field : M JSON :=
  fun st => (Ok (admin_user_access_token st), st).

Definition set_token_field (t : JSON) : M unit :=
  fun st => (Ok tt, mkState t (trace st)).

(** ** The client *)

(** The constructor's arguments; they are set once. *)
Record KeycloakApiClient : Type := mkClient {
  keycloak_url : string;
  realm : string;
  admin_username : string;
  admin_password : string;
  admin_client_id : string;
  admin_client_secret : string;
  token_exchange_target_client_id : string
}.

(** What the client takes from Python's library and from the modules of
    the package that are not at hand, together with the remote side. *)
Class Platform : Type := mkPlatform {
  UUID : Type;
  uuid_str : UUID -> string;             (* [str(u)] *)
  uuid_parse : string -> option UUID;    (* [UUID(s)], [None]: ValueError *)
  quote : string -> string;              (* [urllib.parse.quote] *)
  py_repr : JSON -> string;              (* [f'{x}'] of a non-string *)
  ReadKeycloakUser : Type;
  read_keycloak_user_factory : JSON -> result ReadKeycloakUser;
  server : list Request -> Request -> Response
}.

Section Client.

Context {P : Platform}.

Variable self : KeycloakApiClient.

(** Modelled from the spec: the write request carries username, names,
    email, the two flags and the attribute mapping (all copied to the
    payload as they are), an optional raw and an optional hashed
    password, an optional list of federated identity links and an
    optional user id. *)
Record WriteKeycloakUser : Type := mkWriteUser {
  username : JSON;
  first_name : JSON;
  last_name : JSON;
  email : JSON;
  enabled : JSON;
  email_verified : JSON;
  attributes : JSON;
  raw_password : option string;
  hashed_password : option string;
  federated_identities : option (list KeycloakFederatedIdentity);
  keycloak_id : option UUID
}.

Definition py_str (j : JSON) : string :=
  match j with
  | JString s => s
  | _ => py_repr j
  end.

(** [f'{id}'] where Python lets [None] through. *)
Definition str_id (o : option UUID) : string :=
  match o with
  | Some u => uuid_str u
  | None => "None"
  end.

Definition UUID_ (s : string) : result UUID :=
  match uuid_parse s with
  | Some u => Ok u
  | None => Raise ValueError
  end.

(** One blocking call of [requests]. *)
Definition send (r : Request) : M Response :=
  fun st =>
    (Ok (server (trace st) r),
     mkState (admin_user_access_token st) (trace st ++ [r])%list).

Definition requests_get (u : string) (hs : list (string * string)) : M Response :=
  send (mkRequest GET u NoBody hs).

Definition requests_post (u : string) (d : Body) (hs : list (string * string))
  : M Response :=
  send (mkRequest POST u d hs).

Definition requests_put (u : string) (d : Body) (hs : list (string * string))
  : M Response :=
  send (mkRequest PUT u d hs).

Definition _get_token_url : string :=
  keycloak_url self ++ "/auth/realms/" ++ realm self
    ++ "/protocol/openid-connect/token".

Definition _get_users_url : string :=
  keycloak_url self ++ "/auth/admin/realms/" ++ realm self ++ "/users".

Definition _get_identities_url (user_id : option UUID) : string :=
  _get_users_url ++ "/" ++ str_id user_id ++ "/federated-identity".

Definition form_urlencoded : list (string * string) :=
  [("Content-Type", "application/x-www-form-urlencoded")].

Definition token_request : Request :=
  mkRequest POST _get_token_url
    (FormData [("grant_type", JString "password");
               ("username", JString (admin_username self));
               ("password", JString (admin_password self));
               ("client_id", JString (admin_client_id self));
               ("client_secret", JString (admin_client_secret self))])
    form_urlencoded.

Definition _get_api_admin_oidc_token : M JSON :=
  cached <- get_token_field ;;
  if py_truthy cached then ret cached
  else
    response <- send token_request ;;
    if negb (ok response) then
      error_body <- lift (json response) ;;
      raise (KeycloakApiClientException
               ("Error while obtaining api-admin access_token "
                  ++ "(msg: " ++ py_str error_body ++ ")"))
    else
      granted <- lift (json response) ;;
      tok <- lift (py_getitem granted "access_token") ;;
      set_token_field tok ;;;
      get_token_field.

Definition _get_authorization_header : M string :=
  tok <- _get_api_admin_oidc_token ;;
  ret ("Bearer " ++ py_str tok).

Definition _get_user_identities (keycloak_id : option UUID) : M JSON :=
  auth <- _get_authorization_header ;;
  response <- requests_get (_get_identities_url keycloak_id)
                [("Authorization", auth)] ;;
  if negb (ok response) then
    error_body <- lift (json response) ;;
    raise (KeycloakApiClientException
             ("Error while retrieving identities of user "
                ++ str_id keycloak_id
                ++ " (msg: " ++ py_str error_body ++ ")"))
  else lift (json response).

(** [{i['identityProvider']: i for i in items}] *)
Fixpoint identities_by_provider (items : list JSON) (d : pydict) : result pydict :=
  match items with
  | [] => Ok d
  | i :: rest =>
      match py_getitem i "identityProvider" with
      | Ok k =>
          if py_hashable k then identities_by_provider rest (dict_set k i d)
          else Raise TypeError
      | Raise e => Raise e
      end
  end.

Definition identity_payload (identity : KeycloakFederatedIdentity) : JSON :=
  JObject [("identityProvider", JString (provider_name identity));
           ("userId", user_id identity);
           ("userName", user_name identity)].

Definition identity_request (keycloak_id : option UUID)
    (identity : KeycloakFederatedIdentity) (auth : string) : Request :=
  mkRequest POST
    (_get_identities_url keycloak_id ++ "/" ++ provider_name identity)
    (JsonData (identity_payload identity))
    [("Content-Type", "application/json"); ("Authorization", auth)].

(** The body of the [for identity in federated_identities] loop. *)
Definition update_identity (keycloak_id : option UUID) (keycloak_identities : pydict)
    (identity : KeycloakFederatedIdentity) : M unit :=
  if dict_contains (provider_name identity) keycloak_identities then
    auth <- _get_authorization_header ;;
    response <- send (identity_request keycloak_id identity auth) ;;
    if negb (ok response) then
      error_body <- lift (json response) ;;
      raise (KeycloakApiClientException
               ("Error while creating identity for user "
                  ++ str_id keycloak_id
                  ++ " (msg: " ++ py_str error_body ++ ")"))
    else ret tt
  else ret tt.

Fixpoint for_each {A : Type} (body : A -> M unit) (l : list A) : M unit :=
  match l with
  | [] => ret tt
  | x :: rest => body x ;;; for_each body rest
  end.

Definition _update_user_identities (keycloak_id : option UUID)
    (federated_identities : list KeycloakFederatedIdentity) : M unit :=
  fetched <- _get_user_identities keycloak_id ;;
  items <- lift (py_iter fetched) ;;
  keycloak_identities <- lift (identities_by_provider items []) ;;
  for_each (update_identity keycloak_id keycloak_identities) federated_identities.

(** [for user in response.json(): if user['email'] == email: return user],
    falling off the end of the method returns [None]. *)
Fixpoint first_with_email (email : string) (users : list JSON) : result JSON :=
  match users with
  | [] => Ok JNull
  | user :: rest =>
      match py_getitem user "email" with
      | Ok e => if py_eq_str e email then Ok user else first_with_email email rest
      | Raise err => Raise err
      end
  end.

Definition _get_user_by_email (email : string) : M JSON :=
  auth <- _get_authorization_header ;;
  response <- requests_get (_get_users_url ++ "?email=" ++ quote email)
                [("Authorization", auth)] ;;
  if negb (ok response) then
    error_body <- lift (json response) ;;
    raise (KeycloakApiClientException
             ("Error while retrieving user with email " ++ email
                ++ " (msg: " ++ py_str error_body ++ ")"))
  else
    counted <- lift (json response) ;;
    n <- lift (py_len counted) ;;
    if Nat.eqb n 0 then ret JNull
    else
      candidates <- lift (json response) ;;
      users <- lift (py_iter candidates) ;;
      lift (first_with_email email users).

Definition _get_user_by_id (id : UUID) : M JSON :=
  auth <- _get_authorization_header ;;
  response <- requests_get (_get_users_url ++ "/" ++ uuid_str id)
                [("Authorization", auth)] ;;
  if Z.eqb (status_code response) NOT_FOUND then ret JNull
  else if negb (ok response) then
    error_body <- lift (json response) ;;
    raise (KeycloakApiClientException
             ("Error while retrieving user with id " ++ uuid_str id
                ++ " (msg: " ++ py_str error_body ++ ")"))
  else lift (json response).

Definition plain_credential (raw : string) : JSON :=
  JObject [("type", JString "password");
           ("value", JString raw);
           ("temporary", JBool false)].

Definition bcrypt_credential (hashed : string) : JSON :=
  JObject [("hashedSaltedValue", JString hashed);
           ("algorithm", JString "bcrypt");
           ("hashIterations", JNum 12);
           ("type", JString "password");
           ("temporary", JBool false)].

Definition _get_user_endpoint_schema_data (write_keycloak_user : WriteKeycloakUser)
  : list (string * JSON) :=
  let data :=
    [("username", username write_keycloak_user);
     ("firstName", first_name write_keycloak_user);
     ("lastName", last_name write_keycloak_user);
     ("email", email write_keycloak_user);
     ("enabled", enabled write_keycloak_user);
     ("emailVerified", email_verified write_keycloak_user);
     ("attributes", attributes write_keycloak_user)]%list in
  let hashed_or_none :=
    match hashed_password write_keycloak_user with
    | Some hashed =>
        if negb (String.eqb hashed "") then
          (data ++ [("credentials", JArray [bcrypt_credential hashed])])%list
        else data
    | None => data
    end in
  match raw_password write_keycloak_user with
  | Some raw =>
      if negb (String.eqb raw "") then
        (data ++ [("credentials", JArray [plain_credential raw])])%list
      else hashed_or_none
  | None => hashed_or_none
  end.

Definition usage_error : exn :=
  KeycloakApiClientException
    ("Invalid get user call. " ++ "Email or Keycloak Id has to be specified.").

Definition get_keycloak_user (email : option string) (keycloak_id : option UUID)
  : M (option ReadKeycloakUser) :=
  let by_id_or_fail :=
    match keycloak_id with
    | Some id => _get_user_by_id id
    | None => raise usage_error
    end in
  user_data <-
    match email with
    | Some e => if negb (String.eqb e "") then _get_user_by_email e else by_id_or_fail
    | None => by_id_or_fail
    end ;;
  if negb (py_truthy user_data) then ret None
  else
    user <- lift (read_keycloak_user_factory user_data) ;;
    ret (Some user).

Definition json_headers (auth : string) : list (string * string) :=
  [("Content-Type", "application/json"); ("Authorization", auth)].

Definition register_user (write_keycloak_user : WriteKeycloakUser) : M UUID :=
  auth <- _get_authorization_header ;;
  response <- requests_post _get_users_url
                (JsonData (JObject (_get_user_endpoint_schema_data write_keycloak_user)))
                (json_headers auth) ;;
  if negb (ok response) then
    error_body <- lift (json response) ;;
    raise (KeycloakApiClientException
             ("Error while creating user (msg: " ++ py_str error_body ++ ")"))
  else
    location <- lift (header_get "Location" (response_headers response)) ;;
    let keycloak_id := last_segment location in
    match federated_identities write_keycloak_user with
    | Some (i :: l) =>
        id <- lift (UUID_ keycloak_id) ;;
        _update_user_identities (Some id) (i :: l)
    | _ => ret tt
    end ;;;
    id <- lift (UUID_ keycloak_id) ;;
    ret id.

Definition update_user (write_keycloak_user : WriteKeycloakUser) : M unit :=
  auth <- _get_authorization_header ;;
  response <- requests_put
                (_get_users_url ++ "/" ++ str_id (keycloak_id write_keycloak_user))
                (JsonData (JObject (_get_user_endpoint_schema_data write_keycloak_user)))
                (json_headers auth) ;;
  if negb (ok response) then
    error_body <- lift (json response) ;;
    raise (KeycloakApiClientException
             ("Error while updating user (msg: " ++ py_str error_body ++ ")"))
  else
    match federated_identities write_keycloak_user with
    | Some (i :: l) =>
        _update_user_identities (keycloak_id write_keycloak_user) (i :: l)
    | _ => ret tt
    end.

Definition exchange_request (keycloak_id : UUID) (subject_token : JSON) : Request :=
  mkRequest POST _get_token_url
    (FormData [("audience", JString (token_exchange_target_client_id self));
               ("grant_type",
                 JString ("urn:ietf:params:oauth:grant-type" ++ ":token-exchange"));
               ("requested_subject", JString (uuid_str keycloak_id));
               ("subject_token", subject_token);
               ("client_id", JString (token_exchange_target_client_id self));
               ("client_secret", JString (admin_client_secret self))])
    form_urlencoded.

Definition get_user_tokens (keycloak_id : UUID) : M KeycloakTokens :=
  tok <- _get_api_admin_oidc_token ;;
  response <- send (exchange_request keycloak_id tok) ;;
  if negb (ok response) then
    error_body <- lift (json response) ;;
    raise (KeycloakApiClientException
             ("Error while obtaining user tokens " ++ uuid_str keycloak_id
                ++ " (msg: " ++ py_str error_body ++ ")"))
  else
    data <- lift (json response) ;;
    a <- lift (py_getitem data "access_token") ;;
    r <- lift (py_getitem data "refresh_token") ;;
    ret (mkTokens a r).

(** [[f(x) for x in items]] *)
Fixpoint comprehension {A B : Type} (f : A -> result B) (items : list A)
  : result (list B) :=
  match items with
  | [] => Ok []
  | x :: rest =>
      match f x with
      | Ok y =>
          match comprehension f rest with
          | Ok ys => Ok (y :: ys)
          | Raise e => Raise e
          end
      | Raise e => Raise e
      end
  end.

Definition search_users (query : string) : M (list ReadKeycloakUser) :=
  auth <- _get_authorization_header ;;
  response <- requests_get (_get_users_url ++ "?search=" ++ quote query)
                [("Authorization", auth)] ;;
  if negb (ok response) then
    error_body <- lift (json response) ;;
    raise (KeycloakApiClientException
             ("Error while retrieving users with query " ++ query
                ++ " (msg: " ++ py_str error_body ++ ")"))
  else
    found <- lift (json response) ;;
    items <- lift (py_iter found) ;;
    lift (comprehension read_keycloak_user_factory items).

End Client.

(** ** Vocabulary of the properties *)

(** A freshly constructed instance that has not talked to anyone. *)
Definition fresh : State := mkState JNull [].

(** The requests a run adds to the trace of [st]. *)
Definition issued (st st' : State) (new : list Request) : Prop :=
  trace st' = (trace st ++ new)%list.

(** A password grant is a form post whose [grant_type] is [password]. *)
Definition is_password_grant (r : Request) : bool :=
  match data r with
  | FormData f =>
      match assoc "grant_type" f with
      | Some g => py_eq_str g "password"
      | None => false
      end
  | _ => false
  end.

Definition grants (l : list Request) : nat :=
  List.length (filter is_password_grant l).

(** What a result raised, if it raised. *)
Definition failure {A : Type} (r : result A) : option exn :=
  match r with
  | Ok _ => None
  | Raise e => Some e
  end.

(** A string without ['/']. *)
Fixpoint no_slash (s : string) : bool :=
  match s with
  | EmptyString => true
  | String c rest => negb (Ascii.eqb c "/"%char) && no_slash rest
  end.


Section Vocabulary.

Context {P : Platform}.

Variable self : KeycloakApiClient.

(** The public operations of an instance. *)
Inductive Operation : Type :=
| GetKeycloakUser (email : option string) (keycloak_id : option UUID)
| SearchUsers (query : string)
| RegisterUser (w : WriteKeycloakUser)
| UpdateUser (w : WriteKeycloakUser)
| GetUserTokens (keycloak_id : UUID).

(** The state an operation leaves, whether it returns or raises. *)
Definition perform (op : Operation) (st : State) : State :=
  match op with
  | GetKeycloakUser e i => snd (get_keycloak_user self e i st)
  | SearchUsers q => snd (search_users self q st)
  | RegisterUser w => snd (register_user self w st)
  | UpdateUser w => snd (update_user self w st)
  | GetUserTokens i => snd (get_user_tokens self i st)
  end.

(** Every operation needs the bearer token, except a [get_keycloak_user]
    that is given nothing to look for. *)
Definition authenticated (op : Operation) : bool :=
  match op with
  | GetKeycloakUser e i =>
      truthy_str e || match i with Some _ => true | None => false end
  | _ => true
  end.

(** The token endpoint answers the password grant asked after [history]
    with a usable token [t]. *)
Definition grants_token (history : list Request) (t : JSON) : Prop :=
  ok (server history (token_request self)) = true /\
  (exists granted,
     json (server history (token_request self)) = Ok granted /\
     py_getitem granted "access_token" = Ok t) /\
  py_truthy t = true.

(** A computation that, run with a token in the field, leaves the field
    alone and asks for no further token. *)
Definition keeps_token {A : Type} (c : M A) : Prop :=
  forall st,
    py_truthy (admin_user_access_token st) = true ->
    admin_user_access_token (snd (c st)) = admin_user_access_token st /\
    exists new, issued st (snd (c st)) new /\ grants new = 0.

(** A computation whose first request, run without a token, is the
    password grant, and that asks for no further token. *)
Definition acquires_once {A : Type} (c : M A) : Prop :=
  forall st t,
    py_truthy (admin_user_access_token st) = false ->
    grants_token (trace st) t ->
    admin_user_access_token (snd (c st)) = t /\
    exists new, issued st (snd (c st)) (token_request self :: new) /\ grants new = 0.



Definition after (st : State) (new : list Request) : State :=
  mkState (admin_user_access_token st) (trace st ++ new)%list.

(** The request that reads the identities of a user, with the bearer
    token of [st]. *)
Definition identities_request (keycloak_id : option UUID) (st : State) : Request :=
  mkRequest GET (_get_identities_url self keycloak_id) NoBody
    [("Authorization", "Bearer " ++ py_str (admin_user_access_token st))].

(** The request that creates a user. *)
Definition creation_request (w : WriteKeycloakUser) (auth : string) : Request :=
  mkRequest POST (_get_users_url self)
    (JsonData (JObject (_get_user_endpoint_schema_data w)))
    (json_headers auth).

(** The requests of the lookups and of the search. *)
Definition email_request (email auth : string) : Request :=
  mkRequest GET (_get_users_url self ++ "?email=" ++ quote email) NoBody
    [("Authorization", auth)].

Definition id_request (id : UUID) (auth : string) : Request :=
  mkRequest GET (_get_users_url self ++ "/" ++ uuid_str id) NoBody
    [("Authorization", auth)].

Definition search_request (query auth : string) : Request :=
  mkRequest GET (_get_users_url self ++ "?search=" ++ quote query) NoBody
    [("Authorization", auth)].

(** A candidate that carries an email other than [email]. *)
Definition other_email (email : string) (candidate : JSON) : Prop :=
  exists e, py_getitem candidate "email" = Ok e /\ e <> JString email.

(** The last step of [get_keycloak_user]: nothing for a false value, the
    record made by the factory otherwise. *)
Definition translated (user_data : JSON) : result (option ReadKeycloakUser) :=
  if negb (py_truthy user_data) then Ok None
  else
    match read_keycloak_user_factory user_data with
    | Ok user => Ok (Some user)
    | Raise e => Raise e
    end.


(** The exception an operation ends with, if any. *)
Definition outcome (op : Operation) (st : State) : option exn :=
  match op with
  | GetKeycloakUser e i => failure (fst (get_keycloak_user self e i st))
  | SearchUsers q => failure (fst (search_users self q st))
  | RegisterUser w => failure (fst (register_user self w st))
  | UpdateUser w => failure (fst (update_user self w st))
  | GetUserTokens i => failure (fst (get_user_tokens self i st))
  end.

(** The request that updates a user. *)
Definition update_request (w : WriteKeycloakUser) (auth : string) : Request :=
  mkRequest PUT (_get_users_url self ++ "/" ++ str_id (keycloak_id w))
    (JsonData (JObject (_get_user_endpoint_schema_data w)))
    (json_headers auth).

(** A request that carries the admin token [t]: as bearer in its
    [Authorization] header, or, for the token exchange, as subject token
    in its form. *)
Definition carries_token (t : JSON) (r : Request) : Prop :=
  assoc "Authorization" (headers r) = Some ("Bearer " ++ py_str t)
  \/ exists id, r = exchange_request self id t.

(** A computation that, run with the token [t] in the field, leaves the
    field alone and sends only requests that carry [t]. *)
Definition sends_with_token {A : Type} (t : JSON) (c : M A) : Prop :=
  forall st,
    admin_user_access_token st = t ->
    admin_user_access_token (snd (c st)) = t /\
    exists new, issued st (snd (c st)) new /\ Forall (carries_token t) new.

(** The one request of an operation that needs a single call, with the
    token [t]; nothing for a registration or update with links, and for a
    lookup that is given nothing to look for. *)
Definition sole_request (t : JSON) (op : Operation) : option Request :=
  let auth := "Bearer " ++ py_str t in
  match op with
  | GetKeycloakUser e i =>
      let by_id :=
        match i with
        | Some id => Some (id_request id auth)
        | None => None
        end in
      match e with
      | Some mail => if negb (String.eqb mail "") then Some (email_request mail auth)
                     else by_id
      | None => by_id
      end
  | SearchUsers q => Some (search_request q auth)
  | RegisterUser w =>
      if truthy_list (federated_identities w) then None
      else Some (creation_request w auth)
  | UpdateUser w =>
      if truthy_list (federated_identities w) then None
      else Some (update_request w auth)
  | GetUserTokens id => Some (exchange_request self id t)
  end.

(** An identity that can be keyed: it has a scalar [identityProvider]. *)
Definition keyed (item : JSON) : Prop :=
  exists k, py_getitem item "identityProvider" = Ok k /\ py_hashable k = true.

End Vocabulary.

(** ** A concrete platform

    Ids are their own text, quoting leaves a string alone, a user record
    is its decoded JSON, and the remote side plays a script: the n-th
    request of a run is answered by the n-th response, and by a 500 once
    the script is over. *)

Module Demo.

Definition internal_error : Response := mkResponse 500 (Some JNull) [].

(** An answer whose body is no JSON, as a proxy in front of the remote
    side gives. *)
Definition bad_gateway : Response := mkResponse 502 None [].

Definition scripted (script : list Response) : list Request -> Request -> Response :=
  fun history _ => nth (List.length history) script internal_error.

Definition platform (script : list Response) : Platform :=
  mkPlatform string
    (fun u => u)
    (fun s => if String.eqb s "" then None else Some s)
    (fun s => s)
    (fun _ => "<json>")
    JSON
    (fun j => Ok j)
    (scripted script).

Definition self : KeycloakApiClient :=
  mkClient "http://kc" "demo" "admin" "pw" "admin-cli" "s3cret" "app".

Definition token_response : Response :=
  mkResponse 200
    (Some (JObject [("access_token", JString "tok"); ("refresh_token", JString "ref")]))
    [].

(** A token endpoint that hands out the empty string. *)
Definition empty_token_granted : Response :=
  mkResponse 200 (Some (JObject [("access_token", JString "")])) [].

Definition found (body : JSON) : Response := mkResponse 200 (Some body) [].

Definition not_found : Response := mkResponse 404 (Some JNull) [].

Definition no_content : Response := mkResponse 204 (Some JNull) [].

Definition created : Response :=
  mkResponse 201 (Some JNull)
    [("Location", "http://kc/auth/admin/realms/demo/users/u-42")].

Definition user (mail : string) : JSON :=
  JObject [("id", JString "u-1"); ("email", JString mail)].

Definition google : KeycloakFederatedIdentity :=
  mkIdentity "google" (JNum 1) (JString "g-user").


Definition remote_google : JSON :=
  JArray [JObject [("identityProvider", JString "google");
                   ("userId", JString "old");
                   ("userName", JString "old-name")]].


(** The remote sides of the examples. *)

Definition granting : Platform := platform [token_response].




Definition answering (response : Response) : Platform :=
  platform [token_response; response].

Definition handing_out_empty_tokens : Platform :=
  platform [empty_token_granted; empty_token_granted].

Definition bearer : string := "Bearer tok".

(** The state of an instance after its first, granted, password grant. *)
Definition granted : State :=
  mkState (JString "tok") [token_request self].

Definition writing {P : Platform} (raw hashed : option string)
    (links : option (list KeycloakFederatedIdentity)) : WriteKeycloakUser :=
  mkWriteUser
    (JString "bob") (JString "Bob") (JString "Builder") (JString "bob@x.com")
    (JBool true) (JBool false) (JObject []) raw hashed links None.

(** More remote sides: one that refuses every request, one whose token
    endpoint answers without a token, one that creates a user without
    saying where, and one that names a location without an id. *)

Definition refusing : Platform := platform [].

Definition tokenless : Response :=
  mkResponse 200 (Some (JObject [("token_type", JString "bearer")])) [].

Definition created_nowhere : Response := mkResponse 201 (Some JNull) [].

Definition created_without_id : Response :=
  mkResponse 201 (Some JNull)
    [("location", "http://kc/auth/admin/realms/demo/users/")].

Definition updating : Platform :=
  platform [token_response; no_content; found remote_google; no_content].

Definition anonymous : JSON := JObject [("id", JString "u-9")].

(** A platform whose factory insists on an [id]. *)
Definition strict (script : list Response) : Platform :=
  mkPlatform string
    (fun u => u)
    (fun s => if String.eqb s "" then None else Some s)
    (fun s => s)
    (fun _ => "<json>")
    JSON
    (fun j => match py_getitem j "id" with
              | Ok _ => Ok j
              | Raise e => Raise e
              end)
    (scripted script).

Definition refused : State := mkState JNull [token_request self].


End Demo.

(** ** The token accessor *)

Section TokenAccessor.

Context {P : Platform}.

Variable self : KeycloakApiClient.

Lemma token_cached (st : State) :
  py_truthy (admin_user_access_token st) = true ->
  _get_api_admin_oidc_token self st = (Ok (admin_user_access_token st), st).
Proof.
  intros H. unfold _get_api_admin_oidc_token, bind, get_token_field.
  now rewrite H.
Qed.

Lemma token_granted (st : State) (granted t : JSON) :
  py_truthy (admin_user_access_token st) = false ->
  ok (server (trace st) (token_request self)) = true ->
  json (server (trace st) (token_request self)) = Ok granted ->
  py_getitem granted "access_token" = Ok t ->
  _get_api_admin_oidc_token self st
  = (Ok t, mkState t (trace st ++ [token_request self])%list).
Proof.
  intros Hc Hok Hbody Hget.
  unfold _get_api_admin_oidc_token, bind, get_token_field, send, lift,
    set_token_field, ret.
  rewrite Hc. cbn [trace admin_user_access_token]. rewrite Hok. cbn [negb].
  now rewrite Hbody, Hget.
Qed.

(** A refused grant: the client's exception when the body of the refusal
    is JSON, the error of decoding it otherwise. *)
Lemma token_refused (st : State) :
  py_truthy (admin_user_access_token st) = false ->
  ok (server (trace st) (token_request self)) = false ->
  (forall refusal,
     json (server (trace st) (token_request self)) = Ok refusal ->
     exists msg,
       _get_api_admin_oidc_token self st
       = (Raise (KeycloakApiClientException msg),
          mkState (admin_user_access_token st)
            (trace st ++ [token_request self])%list))
  /\ (forall e,
        json (server (trace st) (token_request self)) = Raise e ->
        _get_api_admin_oidc_token self st
        = (Raise e,
           mkState (admin_user_access_token st)
             (trace st ++ [token_request self])%list)).
Proof.
  intros Hc Hok.
  unfold _get_api_admin_oidc_token, bind, get_token_field, send, raise, lift.
  rewrite Hc. cbn [trace admin_user_access_token]. rewrite Hok. cbn [negb].
  split.
  - intros refusal ->. eexists. reflexivity.
  - now intros e ->.
Qed.

Lemma header_cached (st : State) :
  py_truthy (admin_user_access_token st) = true ->
  _get_authorization_header self st
  = (Ok ("Bearer " ++ py_str (admin_user_access_token st)), st).
Proof.
  intros H. unfold _get_authorization_header, bind.
  now rewrite (token_cached st H).
Qed.

(** *** Computations that leave a cached token alone *)

Lemma issued_refl (st : State) : issued st st [].
Proof. unfold issued. now rewrite app_nil_r. Qed.

Lemma issued_trans (a b c : State) (l1 l2 : list Request) :
  issued a b l1 -> issued b c l2 -> issued a c (l1 ++ l2)%list.
Proof. unfold issued. intros -> ->. now rewrite app_assoc. Qed.

Lemma grants_app (l1 l2 : list Request) :
  grants (l1 ++ l2) = grants l1 + grants l2.
Proof. unfold grants. now rewrite filter_app, length_app. Qed.

Lemma keeps_ret {A : Type} (a : A) : keeps_token (ret a).
Proof. intros st _. split; [reflexivity|]. exists []. split; [apply issued_refl|reflexivity]. Qed.

Lemma keeps_raise {A : Type} (e : exn) : keeps_token (@raise A e).
Proof. intros st _. split; [reflexivity|]. exists []. split; [apply issued_refl|reflexivity]. Qed.

Lemma keeps_lift {A : Type} (r : result A) : keeps_token (lift r).
Proof. intros st _. split; [reflexivity|]. exists []. split; [apply issued_refl|reflexivity]. Qed.

Lemma keeps_send (r : Request) :
  is_password_grant r = false -> keeps_token (send r).
Proof.
  intros Hr st _. split; [reflexivity|]. exists [r]. split; [reflexivity|].
  unfold grants. cbn. now rewrite Hr.
Qed.

Lemma keeps_bind {A B : Type} (c : M A) (k : A -> M B) :
  keeps_token c -> (forall a, keeps_token (k a)) -> keeps_token (bind c k).
Proof.
  intros Hc Hk st Ht. unfold bind.
  destruct (Hc st Ht) as [Hf [l1 [Hi Hg]]].
  destruct (c st) as [[a|e] st1]; cbn [snd] in *.
  - assert (Ht1 : py_truthy (admin_user_access_token st1) = true) by now rewrite Hf.
    destruct (Hk a st1 Ht1) as [Hf2 [l2 [Hi2 Hg2]]].
    split; [congruence|]. exists (l1 ++ l2)%list. split.
    + eapply issued_trans; eassumption.
    + rewrite grants_app. lia.
  - split; [assumption|]. now exists l1.
Qed.

Lemma keeps_accessor : keeps_token (_get_api_admin_oidc_token self).
Proof.
  intros st Ht. rewrite (token_cached st Ht). cbn [snd].
  split; [reflexivity|]. exists []. split; [apply issued_refl|reflexivity].
Qed.

End TokenAccessor.

Section Memoization.

Context {P : Platform}.

Variable self : KeycloakApiClient.

Lemma keeps_for_each {A : Type} (body : A -> M unit) (l : list A) :
  (forall x, keeps_token (body x)) -> keeps_token (for_each body l).
Proof.
  intros Hb. induction l as [|x rest IH]; cbn [for_each].
  - apply keeps_ret.
  - apply keeps_bind; [apply Hb | intros _; exact IH].
Qed.

Lemma acquires_accessor : acquires_once self (_get_api_admin_oidc_token self).
Proof.
  intros st t Hc (Hok & (granted & Hbody & Hget) & Ht).
  rewrite (token_granted self st granted t Hc Hok Hbody Hget).
  cbn [snd admin_user_access_token].
  split; [reflexivity|]. exists []. split; reflexivity.
Qed.

Lemma acquires_bind {A B : Type} (c : M A) (k : A -> M B) :
  acquires_once self c -> (forall a, keeps_token (k a)) ->
  acquires_once self (bind c k).
Proof.
  intros Hc Hk st t Hf Hg. unfold bind.
  destruct (Hc st t Hf Hg) as [Hf1 [l1 [Hi Hg1]]].
  destruct (c st) as [[a|e] st1]; cbn [snd] in *.
  - assert (Ht1 : py_truthy (admin_user_access_token st1) = true).
    { rewrite Hf1. apply Hg. }
    destruct (Hk a st1 Ht1) as [Hf2 [l2 [Hi2 Hg2]]].
    split; [congruence|]. exists (l1 ++ l2)%list. split.
    + unfold issued in *. rewrite Hi2, Hi. now rewrite <- app_assoc.
    + rewrite grants_app. lia.
  - split; [assumption|]. now exists l1.
Qed.

Ltac step_keeps :=
  first
    [ apply keeps_ret | apply keeps_raise | apply keeps_lift
    | apply keeps_accessor
    | apply keeps_send; reflexivity
    | apply keeps_for_each; intros ?
    | apply keeps_bind; [ | intros ? ]
    | match goal with
      | |- keeps_token (if ?b then _ else _) => destruct b
      | |- keeps_token (match ?x with _ => _ end) => destruct x
      end ].

Lemma keeps_header : keeps_token (_get_authorization_header self).
Proof. unfold _get_authorization_header. repeat step_keeps. Qed.

Lemma keeps_update_identity i d x : keeps_token (update_identity self i d x).
Proof.
  unfold update_identity.
  destruct (dict_contains _ _); [|apply keeps_ret].
  apply keeps_bind; [apply keeps_header|intros ?]. repeat step_keeps.
Qed.

Lemma keeps_update_user_identities i l :
  keeps_token (_update_user_identities self i l).
Proof.
  unfold _update_user_identities, _get_user_identities, requests_get.
  apply keeps_bind.
  - apply keeps_bind; [apply keeps_header|intros ?]. repeat step_keeps.
  - intros ?. apply keeps_bind; [apply keeps_lift|intros ?].
    apply keeps_bind; [apply keeps_lift|intros ?].
    apply keeps_for_each. intros ?. apply keeps_update_identity.
Qed.

Lemma keeps_get_user_by_email e : keeps_token (_get_user_by_email self e).
Proof.
  unfold _get_user_by_email, requests_get.
  apply keeps_bind; [apply keeps_header|intros ?]. repeat step_keeps.
Qed.

Lemma keeps_get_user_by_id i : keeps_token (_get_user_by_id self i).
Proof.
  unfold _get_user_by_id, requests_get.
  apply keeps_bind; [apply keeps_header|intros ?]. repeat step_keeps.
Qed.

Lemma keeps_get_keycloak_user e i : keeps_token (get_keycloak_user self e i).
Proof.
  unfold get_keycloak_user. apply keeps_bind.
  - destruct e as [s|]; [destruct (negb _)|]; try apply keeps_get_user_by_email;
      destruct i; first [apply keeps_get_user_by_id | apply keeps_raise].
  - intros ?. repeat step_keeps.
Qed.

Lemma keeps_search_users q : keeps_token (search_users self q).
Proof.
  unfold search_users, requests_get.
  apply keeps_bind; [apply keeps_header|intros ?]. repeat step_keeps.
Qed.

Lemma keeps_register_user w : keeps_token (register_user self w).
Proof.
  unfold register_user, requests_post.
  apply keeps_bind; [apply keeps_header|intros ?].
  apply keeps_bind; [apply keeps_send; reflexivity|intros ?].
  destruct (negb _); [repeat step_keeps|].
  apply keeps_bind; [apply keeps_lift|intros ?].
  apply keeps_bind; [|intros ?; repeat step_keeps].
  destruct (federated_identities w) as [[|? ?]|]; try apply keeps_ret.
  apply keeps_bind; [apply keeps_lift|intros ?].
  apply keeps_update_user_identities.
Qed.

Lemma keeps_update_user w : keeps_token (update_user self w).
Proof.
  unfold update_user, requests_put.
  apply keeps_bind; [apply keeps_header|intros ?].
  apply keeps_bind; [apply keeps_send; reflexivity|intros ?].
  destruct (negb _); [repeat step_keeps|].
  destruct (federated_identities w) as [[|? ?]|]; try apply keeps_ret.
  apply keeps_update_user_identities.
Qed.

Lemma keeps_get_user_tokens i : keeps_token (get_user_tokens self i).
Proof.
  unfold get_user_tokens.
  apply keeps_bind; [apply keeps_accessor|intros ?].
  apply keeps_bind; [apply keeps_send; reflexivity|intros ?].
  repeat step_keeps.
Qed.


Ltac keeps_all :=
  unfold requests_get, requests_post, requests_put;
  repeat first
    [ apply keeps_header | apply keeps_update_user_identities | step_keeps ].

Lemma acquires_header : acquires_once self (_get_authorization_header self).
Proof.
  unfold _get_authorization_header.
  apply acquires_bind; [apply acquires_accessor | intros ?; apply keeps_ret].
Qed.

Ltac acquires_via_header :=
  apply acquires_bind; [apply acquires_header | intros ?; keeps_all].

Lemma acquires_get_user_by_email e : acquires_once self (_get_user_by_email self e).
Proof. unfold _get_user_by_email. acquires_via_header. Qed.

Lemma acquires_get_user_by_id i : acquires_once self (_get_user_by_id self i).
Proof. unfold _get_user_by_id. acquires_via_header. Qed.

Lemma acquires_operation (op : Operation) (st : State) (t : JSON) :
  authenticated op = true ->
  py_truthy (admin_user_access_token st) = false ->
  grants_token self (trace st) t ->
  admin_user_access_token (perform self op st) = t /\
  exists new,
    issued st (perform self op st) (token_request self :: new) /\ grants new = 0.
Proof.
  intros Hauth. revert st t.
  change (acquires_once self (fun st => (Ok tt, perform self op st))).
  destruct op as [e i|q|w|w|i]; cbn [perform authenticated] in *.
  - assert (H : acquires_once self (get_keycloak_user self e i)).
    { unfold get_keycloak_user. apply acquires_bind; [|intros ?; keeps_all].
      destruct e as [s|]; cbn [truthy_str] in Hauth.
      - destruct (negb (String.eqb s "")); [apply acquires_get_user_by_email|].
        destruct i; [apply acquires_get_user_by_id|discriminate].
      - destruct i; [apply acquires_get_user_by_id|discriminate]. }
    exact H.
  - assert (H : acquires_once self (search_users self q)).
    { unfold search_users. acquires_via_header. }
    exact H.
  - assert (H : acquires_once self (register_user self w)).
    { unfold register_user. acquires_via_header. }
    exact H.
  - assert (H : acquires_once self (update_user self w)).
    { unfold update_user. acquires_via_header. }
    exact H.
  - assert (H : acquires_once self (get_user_tokens self i)).
    { unfold get_user_tokens.
      apply acquires_bind; [apply acquires_accessor | intros ?; keeps_all]. }
    exact H.
Qed.

Lemma keeps_operation (op : Operation) (st : State) :
  py_truthy (admin_user_access_token st) = true ->
  admin_user_access_token (perform self op st) = admin_user_access_token st /\
  exists new, issued st (perform self op st) new /\ grants new = 0.
Proof.
  destruct op as [e i|q|w|w|i]; cbn [perform].
  - apply keeps_get_keycloak_user.
  - apply keeps_search_users.
  - apply keeps_register_user.
  - apply keeps_update_user.
  - apply keeps_get_user_tokens.
Qed.

End Memoization.

Section MemoizationClaim.

Context {P : Platform}.

Variable self : KeycloakApiClient.

Lemma grants_token_request : grants [token_request self] = 1.
Proof. reflexivity. Qed.

(** C2.  The admin token is memoized per instance.  When the field holds
    no token and the token endpoint grants the token [t], the first call
    of the accessor issues exactly one request, the password grant, stores
    [t] in the field and returns it; every later call, in whatever state
    holds [t], returns [t] and issues nothing; no operation started with
    [t] in the field changes the field or asks for a token again; and any
    two authenticated operations run one after the other from the state
    without a token add exactly one password grant to the trace. *)
Theorem token_is_memoized (st : State) (t : JSON) :
  py_truthy (admin_user_access_token st) = false ->
  grants_token self (trace st) t ->
  _get_api_admin_oidc_token self st
    = (Ok t, mkState t (trace st ++ [token_request self])%list)
  /\ (forall st', admin_user_access_token st' = t ->
        _get_api_admin_oidc_token self st' = (Ok t, st'))
  /\ (forall op st', admin_user_access_token st' = t ->
        admin_user_access_token (perform self op st') = t
        /\ grants (trace (perform self op st')) = grants (trace st'))
  /\ (forall op1 op2, authenticated op1 = true -> authenticated op2 = true ->
        admin_user_access_token (perform self op2 (perform self op1 st)) = t
        /\ grants (trace (perform self op2 (perform self op1 st)))
           = grants (trace st) + 1).
Proof.
  intros Hc Hg. pose proof Hg as (Hok & (granted & Hbody & Hget) & Ht).
  split; [now apply (token_granted self st granted t)|].
  split.
  { intros st' <-. now apply token_cached. }
  split.
  { intros op st' <-. destruct (keeps_operation self op st' Ht) as [Hf [new [Hi Hn]]].
    split; [assumption|]. rewrite Hi, grants_app. lia. }
  intros op1 op2 H1 H2.
  destruct (acquires_operation self op1 st t H1 Hc Hg) as [Hf1 [l1 [Hi1 Hn1]]].
  assert (Ht1 : py_truthy (admin_user_access_token (perform self op1 st)) = true)
    by now rewrite Hf1.
  destruct (keeps_operation self op2 _ Ht1) as [Hf2 [l2 [Hi2 Hn2]]].
  split; [congruence|].
  rewrite Hi2, Hi1, !grants_app.
  change (token_request self :: l1) with ([token_request self] ++ l1)%list.
  rewrite grants_app, grants_token_request. lia.
Qed.

End MemoizationClaim.

(** ** Reconciliation of federated identities *)

Section Reconciliation.

Context {P : Platform}.

Variable self : KeycloakApiClient.



Lemma py_eq_str_true (j : JSON) (s : string) :
  py_eq_str j s = true <-> j = JString s.
Proof.
  destruct j; cbn; split; intros H; try discriminate.
  - apply String.eqb_eq in H. now subst.
  - injection H as ->. apply String.eqb_refl.
Qed.













(** What a call of the accessor adds to the trace, whatever its outcome. *)
Lemma accessor_adds (st : State) :
  exists pre,
    (pre = [] \/ pre = [token_request self]) /\
    issued st (snd (_get_api_admin_oidc_token self st)) pre.
Proof.
  unfold _get_api_admin_oidc_token, bind, get_token_field, send, raise, lift,
    set_token_field, ret.
  destruct (py_truthy (admin_user_access_token st)).
  - exists []. split; [now left|apply issued_refl].
  - exists [token_request self]. split; [now right|].
    cbn [trace admin_user_access_token].
    destruct (negb (ok _)); [now destruct (json _)|].
    destruct (json _); [|reflexivity].
    destruct (py_getitem _ _); reflexivity.
Qed.








End Reconciliation.

(** ** Looking a user up *)

Section Lookup.

Context {P : Platform}.

Variable self : KeycloakApiClient.

Lemma py_eq_str_false (j : JSON) (s : string) :
  j <> JString s -> py_eq_str j s = false.
Proof.
  intros H. destruct (py_eq_str j s) eqn:E; [|reflexivity].
  apply py_eq_str_true in E. contradiction.
Qed.

Lemma first_with_email_none (email : string) (users : list JSON) :
  Forall (other_email email) users ->
  first_with_email email users = Ok JNull.
Proof.
  induction 1 as [|c rest [e [He Hne]] _ IH]; cbn; [reflexivity|].
  now rewrite He, (py_eq_str_false e email Hne).
Qed.

Lemma first_with_email_found (email : string) (before : list JSON) (user : JSON)
    (later : list JSON) :
  Forall (other_email email) before ->
  py_getitem user "email" = Ok (JString email) ->
  first_with_email email (before ++ user :: later) = Ok user.
Proof.
  intros Hb Hu. induction Hb as [|c rest [e [He Hne]] _ IH]; cbn.
  - rewrite Hu. cbn. now rewrite String.eqb_refl.
  - now rewrite He, (py_eq_str_false e email Hne).
Qed.

Lemma get_user_by_email_unfold (email : string) (st st1 : State) (auth : string) :
  _get_authorization_header self st = (Ok auth, st1) ->
  let response := server (trace st1) (email_request self email auth) in
  ok response = true ->
  forall candidates, json response = Ok (JArray candidates) ->
  _get_user_by_email self email st
  = (match candidates with
     | [] => Ok JNull
     | _ => first_with_email email candidates
     end, after st1 [email_request self email auth]).
Proof.
  intros Hauth response Hok candidates Hbody.
  unfold _get_user_by_email, bind at 1. rewrite Hauth.
  unfold bind at 1, requests_get, send. fold (email_request self email auth).
  fold response. rewrite Hok. cbn [negb]. unfold bind, lift. rewrite Hbody.
  unfold after. destruct candidates; reflexivity.
Qed.

(** C3.  When the search by email is answered with success and a list of
    candidates, the lookup returns [None] for the empty list and for a
    list in which every candidate carries another email, and it returns
    the first candidate whose email is the queried string, character for
    character, when the candidates before it carry other emails. *)
Theorem lookup_by_email_is_exact (email : string) (st st1 : State) (auth : string)
    (candidates : list JSON) :
  _get_authorization_header self st = (Ok auth, st1) ->
  ok (server (trace st1) (email_request self email auth)) = true ->
  json (server (trace st1) (email_request self email auth))
    = Ok (JArray candidates) ->
  let stop := after st1 [email_request self email auth] in
  (candidates = [] -> _get_user_by_email self email st = (Ok JNull, stop))
  /\ (Forall (other_email email) candidates ->
      _get_user_by_email self email st = (Ok JNull, stop))
  /\ (forall before user later,
        candidates = (before ++ user :: later)%list ->
        Forall (other_email email) before ->
        py_getitem user "email" = Ok (JString email) ->
        _get_user_by_email self email st = (Ok user, stop)).
Proof.
  intros Hauth Hok Hbody stop.
  rewrite (get_user_by_email_unfold email st st1 auth Hauth Hok candidates Hbody).
  fold stop. split; [now intros ->|]. split.
  - intros Hall. rewrite (first_with_email_none email candidates Hall).
    now destruct candidates.
  - intros before user later -> Hb Hu.
    rewrite (first_with_email_found email before user later Hb Hu).
    now destruct before.
Qed.

Lemma get_keycloak_user_by_id (id : UUID) (st : State) :
  get_keycloak_user self None (Some id) st
  = (user_data <- _get_user_by_id self id ;; lift (translated user_data)) st.
Proof.
  unfold get_keycloak_user, bind, translated, lift, ret.
  destruct (_get_user_by_id self id st) as [[user_data|e] st1]; [|reflexivity].
  destruct (negb (py_truthy user_data)); [reflexivity|].
  destruct (read_keycloak_user_factory user_data); reflexivity.
Qed.

Lemma get_keycloak_user_by_email (email : string) (keycloak_id : option UUID)
    (st : State) :
  email <> "" ->
  get_keycloak_user self (Some email) keycloak_id st
  = (user_data <- _get_user_by_email self email ;; lift (translated user_data)) st.
Proof.
  intros He. apply String.eqb_neq in He.
  unfold get_keycloak_user, bind, translated, lift, ret. rewrite He. cbn [negb].
  destruct (_get_user_by_email self email st) as [[user_data|e] st1]; [|reflexivity].
  destruct (negb (py_truthy user_data)); [reflexivity|].
  destruct (read_keycloak_user_factory user_data); reflexivity.
Qed.

(** C4, as the code has it.  [get_keycloak_user] needs an email or an id:
    given neither, it raises the usage error and leaves the state as it
    found it, so no request is made and no token is asked for; given both,
    it ignores the id and looks the user up by email. *)
Theorem get_user_needs_email_or_id (st : State) :
  get_keycloak_user self None None st = (Raise usage_error, st)
  /\ (forall email id,
        email <> "" ->
        get_keycloak_user self (Some email) (Some id) st
        = get_keycloak_user self (Some email) None st
        /\ get_keycloak_user self (Some email) (Some id) st
          = (user_data <- _get_user_by_email self email ;;
             lift (translated user_data)) st).
Proof.
  split; [reflexivity|]. intros email id He.
  now rewrite !(get_keycloak_user_by_email email _ st He).
Qed.

(** C9.  An empty email counts as no email: with no id the usage error is
    raised and the state is left as it was found; with an id the call is
    the call without an email, which is the lookup by id. *)
Theorem empty_email_is_no_email (st : State) :
  get_keycloak_user self (Some "") None st = (Raise usage_error, st)
  /\ get_keycloak_user self (Some "") None st
     = get_keycloak_user self None None st
  /\ (forall id,
        get_keycloak_user self (Some "") (Some id) st
        = get_keycloak_user self None (Some id) st
        /\ get_keycloak_user self (Some "") (Some id) st
          = (user_data <- _get_user_by_id self id ;;
             lift (translated user_data)) st).
Proof.
  split; [reflexivity|]. split; [reflexivity|]. intros id.
  split; [reflexivity|]. exact (get_keycloak_user_by_id id st).
Qed.

Lemma ok_is_not_404 (response : Response) :
  ok response = true -> Z.eqb (status_code response) NOT_FOUND = false.
Proof.
  unfold ok, NOT_FOUND. intros H. destruct (Z.eqb_spec (status_code response) 404) as [E|];
    [|reflexivity].
  rewrite E in H. discriminate.
Qed.


End Lookup.

(** ** The payload of a write *)

Section Payload.

Context {P : Platform}.

Variable self : KeycloakApiClient.

(** C5.  The credentials of the payload.  A raw password that is set (a
    non-empty string) gives one plain password credential, whatever the
    hashed password is; without it, a hashed password that is set gives
    one bcrypt credential with 12 iterations; without both, the payload
    has no [credentials] key at all. *)
Theorem credentials_follow_the_passwords (w : WriteKeycloakUser) :
  let payload := _get_user_endpoint_schema_data w in
  (forall raw,
     raw_password w = Some raw -> raw <> "" ->
     assoc "credentials" payload
     = Some (JArray [JObject [("type", JString "password");
                              ("value", JString raw);
                              ("temporary", JBool false)]]))
  /\ (forall hashed,
        truthy_str (raw_password w) = false ->
        hashed_password w = Some hashed -> hashed <> "" ->
        assoc "credentials" payload
        = Some (JArray [JObject [("hashedSaltedValue", JString hashed);
                                 ("algorithm", JString "bcrypt");
                                 ("hashIterations", JNum 12);
                                 ("type", JString "password");
                                 ("temporary", JBool false)]]))
  /\ (truthy_str (raw_password w) = false ->
      truthy_str (hashed_password w) = false ->
      assoc "credentials" payload = None
      /\ ~ In "credentials" (map fst payload)).
Proof.
  unfold _get_user_endpoint_schema_data, truthy_str. cbn zeta.
  split; [|split].
  - intros raw -> Hraw. apply String.eqb_neq in Hraw. now rewrite Hraw.
  - intros hashed Hraw -> Hh. apply String.eqb_neq in Hh. rewrite Hh. cbn [negb].
    destruct (raw_password w) as [raw|]; [rewrite Hraw|]; reflexivity.
  - intros Hraw Hh.
    destruct (raw_password w) as [raw|], (hashed_password w) as [hashed|];
      try rewrite Hraw; try rewrite Hh; cbn;
      (split; [reflexivity|]);
      intros H; repeat (destruct H as [H|H]; [discriminate|]); exact H.
Qed.

End Payload.

(** ** Tokens of a user and the search *)

Section TokensAndSearch.

Context {P : Platform}.

Variable self : KeycloakApiClient.

Lemma get_user_tokens_unfold (id : UUID) (st st1 : State) (t : JSON) :
  _get_api_admin_oidc_token self st = (Ok t, st1) ->
  let response := server (trace st1) (exchange_request self id t) in
  get_user_tokens self id st
  = ((if negb (ok response) then
        error_body <- lift (json response) ;;
        raise (KeycloakApiClientException
                 ("Error while obtaining user tokens " ++ uuid_str id
                    ++ " (msg: " ++ py_str error_body ++ ")"))
      else
        data <- lift (json response) ;;
        a <- lift (py_getitem data "access_token") ;;
        r <- lift (py_getitem data "refresh_token") ;;
        ret (mkTokens a r)) (after st1 [exchange_request self id t])).
Proof.
  intros Hacc response. unfold get_user_tokens, bind at 1. rewrite Hacc.
  unfold bind at 1, send. reflexivity.
Qed.




End TokensAndSearch.

(** ** The properties at work on the concrete platform *)

(** A search and a token exchange on a fresh instance: one password
    grant. *)
Lemma token_is_memoized_witness :
  admin_user_access_token
    (perform (P := Demo.granting) Demo.self (GetUserTokens (P := Demo.granting) "u-1")
       (perform (P := Demo.granting) Demo.self (SearchUsers (P := Demo.granting) "bob") fresh))
  = JString "tok"
  /\ grants
       (trace
          (perform (P := Demo.granting) Demo.self (GetUserTokens (P := Demo.granting) "u-1")
             (perform (P := Demo.granting) Demo.self (SearchUsers (P := Demo.granting) "bob") fresh)))
     = 1.
Proof.
  exact (proj2 (proj2 (proj2
           (token_is_memoized (P := Demo.granting) Demo.self fresh (JString "tok")
              eq_refl
              (conj eq_refl
                 (conj (ex_intro _ (JObject [("access_token", JString "tok");
                                             ("refresh_token", JString "ref")])
                          (conj eq_refl eq_refl))
                    eq_refl)))))
           (SearchUsers (P := Demo.granting) "bob") (GetUserTokens (P := Demo.granting) "u-1") eq_refl eq_refl).
Defined.


(** The three answers to a search for [a@x.com]: no candidate, a
    candidate with another email, the match followed by another one. *)
Lemma lookup_by_email_is_exact_witness :
  _get_user_by_email (P := Demo.answering (Demo.found (JArray []))) Demo.self
    "a@x.com" fresh
  = (Ok JNull,
     after Demo.granted
       [email_request (P := Demo.answering (Demo.found (JArray []))) Demo.self
          "a@x.com" Demo.bearer])
  /\ _get_user_by_email
       (P := Demo.answering (Demo.found (JArray [Demo.user "b@x.com"]))) Demo.self
       "a@x.com" fresh
     = (Ok JNull,
        after Demo.granted
          [email_request
             (P := Demo.answering (Demo.found (JArray [Demo.user "b@x.com"])))
             Demo.self "a@x.com" Demo.bearer])
  /\ _get_user_by_email
       (P := Demo.answering
               (Demo.found (JArray [Demo.user "a@x.com"; Demo.user "c@x.com"])))
       Demo.self "a@x.com" fresh
     = (Ok (Demo.user "a@x.com"),
        after Demo.granted
          [email_request
             (P := Demo.answering
                     (Demo.found (JArray [Demo.user "a@x.com"; Demo.user "c@x.com"])))
             Demo.self "a@x.com" Demo.bearer]).
Proof.
  split; [|split].
  - apply (proj1 (lookup_by_email_is_exact
                    (P := Demo.answering (Demo.found (JArray []))) Demo.self
                    "a@x.com" fresh Demo.granted Demo.bearer []
                    eq_refl eq_refl eq_refl)).
    reflexivity.
  - apply (proj1 (proj2 (lookup_by_email_is_exact
                    (P := Demo.answering (Demo.found (JArray [Demo.user "b@x.com"])))
                    Demo.self "a@x.com" fresh Demo.granted Demo.bearer
                    [Demo.user "b@x.com"] eq_refl eq_refl eq_refl))).
    repeat constructor. exists (JString "b@x.com"). split; [reflexivity|discriminate].
  - apply (proj2 (proj2 (lookup_by_email_is_exact
                    (P := Demo.answering
                            (Demo.found (JArray [Demo.user "a@x.com"; Demo.user "c@x.com"])))
                    Demo.self "a@x.com" fresh Demo.granted Demo.bearer
                    [Demo.user "a@x.com"; Demo.user "c@x.com"]
                    eq_refl eq_refl eq_refl))
             [] (Demo.user "a@x.com") [Demo.user "c@x.com"]).
    + reflexivity.
    + constructor.
    + reflexivity.
Defined.

(** An email and an id together: the user is looked up by email and
    returned; no usage error is raised. *)
Lemma get_user_with_email_and_id_looks_up :
  get_keycloak_user
    (P := Demo.answering (Demo.found (JArray [Demo.user "a@x.com"])))
    Demo.self (Some "a@x.com") (Some "u-1") fresh
  = (Ok (Some (Demo.user "a@x.com")),
     after Demo.granted
       [email_request
          (P := Demo.answering (Demo.found (JArray [Demo.user "a@x.com"])))
          Demo.self "a@x.com" Demo.bearer])
  /\ fst (get_keycloak_user
            (P := Demo.answering (Demo.found (JArray [Demo.user "a@x.com"])))
            Demo.self (Some "a@x.com") (Some "u-1") fresh)
     <> Raise usage_error.
Proof. split; [reflexivity|discriminate]. Qed.

Lemma get_user_needs_email_or_id_witness :
  get_keycloak_user
    (P := Demo.answering (Demo.found (JArray [Demo.user "a@x.com"])))
    Demo.self (Some "a@x.com") (Some "u-1") fresh
  = get_keycloak_user
      (P := Demo.answering (Demo.found (JArray [Demo.user "a@x.com"])))
      Demo.self (Some "a@x.com") None fresh.
Proof.
  apply (proj2 (get_user_needs_email_or_id
                  (P := Demo.answering (Demo.found (JArray [Demo.user "a@x.com"])))
                  Demo.self fresh) "a@x.com" "u-1").
  discriminate.
Defined.

(** The three payloads of the registration of [bob]: a raw password, a
    hashed one, none. *)
Lemma credentials_follow_the_passwords_witness :
  assoc "credentials"
    (_get_user_endpoint_schema_data
       (Demo.writing (P := Demo.granting) (Some "secret") (Some "h") None))
  = Some (JArray [JObject [("type", JString "password");
                           ("value", JString "secret");
                           ("temporary", JBool false)]])
  /\ assoc "credentials"
       (_get_user_endpoint_schema_data
          (Demo.writing (P := Demo.granting) None (Some "h") None))
     = Some (JArray [JObject [("hashedSaltedValue", JString "h");
                              ("algorithm", JString "bcrypt");
                              ("hashIterations", JNum 12);
                              ("type", JString "password");
                              ("temporary", JBool false)]])
  /\ assoc "credentials"
       (_get_user_endpoint_schema_data
          (Demo.writing (P := Demo.granting) None None None))
     = None.
Proof.
  split; [|split].
  - apply (proj1 (credentials_follow_the_passwords
                    (Demo.writing (P := Demo.granting) (Some "secret") (Some "h") None))
             "secret"); [reflexivity|discriminate].
  - apply (proj1 (proj2 (credentials_follow_the_passwords
                    (Demo.writing (P := Demo.granting) None (Some "h") None)))
             "h"); [reflexivity|reflexivity|discriminate].
  - apply (proj2 (proj2 (credentials_follow_the_passwords
                    (Demo.writing (P := Demo.granting) None None None))));
      reflexivity.
Defined.





(** What the conditions of the source make of empty strings: an empty
    token counts as no token and is asked for again, an empty raw
    password counts as no password. *)
Lemma empty_token_counts_as_unset :
  grants
    (trace
       (snd (_get_api_admin_oidc_token (P := Demo.handing_out_empty_tokens) Demo.self
               (snd (_get_api_admin_oidc_token (P := Demo.handing_out_empty_tokens)
                       Demo.self fresh)))))
  = 2.
Proof. reflexivity. Qed.

Lemma empty_password_counts_as_unset :
  assoc "credentials"
    (_get_user_endpoint_schema_data
       (Demo.writing (P := Demo.granting) (Some "") (Some "h") None))
  = Some (JArray [bcrypt_credential "h"])
  /\ assoc "credentials"
       (_get_user_endpoint_schema_data
          (Demo.writing (P := Demo.granting) (Some "") None None))
     = None.
Proof. split; reflexivity. Qed.

(** ** When no token can be had *)

Section WithoutToken.

Context {P : Platform}.

Variable self : KeycloakApiClient.

(** X1.  A refused password grant raises, the client's exception when
    the body of the refusal is JSON and the error of decoding the body
    when it is not, and leaves the field without a token, so nothing of
    the failure is remembered: the next call of the accessor sends the
    grant again. *)
Theorem refused_grant_is_asked_again (st : State) :
  py_truthy (admin_user_access_token st) = false ->
  ok (server (trace st) (token_request self)) = false ->
  (forall refusal,
     json (server (trace st) (token_request self)) = Ok refusal ->
     exists msg,
       _get_api_admin_oidc_token self st
       = (Raise (KeycloakApiClientException msg), after st [token_request self]))
  /\ (json_body (server (trace st) (token_request self)) = None ->
      _get_api_admin_oidc_token self st
      = (Raise JSONDecodeError, after st [token_request self]))
  /\ trace (snd (_get_api_admin_oidc_token self (after st [token_request self])))
     = (trace st ++ [token_request self; token_request self])%list.
Proof.
  intros Hc Hbad. destruct (token_refused self st Hc Hbad) as [Hjson Hraw].
  split; [exact Hjson|]. split.
  { intros Hnone. apply Hraw. unfold json. now rewrite Hnone. }
  clear Hjson Hraw Hbad.
  destruct (accessor_adds self (after st [token_request self])) as [pre [Hpre Hi]].
  assert (Hpre' : pre = [token_request self]).
  { destruct Hpre as [->|Hpre]; [|exact Hpre]. exfalso.
    unfold _get_api_admin_oidc_token, bind, get_token_field, issued in Hi.
    cbn [after admin_user_access_token] in Hi. rewrite Hc in Hi.
    unfold send, lift in Hi. cbn [trace admin_user_access_token] in Hi.
    rewrite app_nil_r in Hi.
    assert (Hlen : forall st', trace st'
                     = ((trace st ++ [token_request self]) ++ [token_request self])%list ->
                     trace st' <> (trace st ++ [token_request self])%list).
    { intros st' -> H. apply (f_equal (@List.length Request)) in H.
      rewrite !length_app in H. cbn in H. lia. }
    revert Hi. destruct (negb (ok _)); [destruct (json _); now apply Hlen|].
    destruct (json _); [|now apply Hlen].
    destruct (py_getitem _ _); now apply Hlen. }
  subst pre. rewrite Hi. cbn [after trace]. now rewrite <- app_assoc.
Qed.

(** X2.  A successful answer of the token endpoint that has no [access_token]
    raises [KeyError], and one that is no object raises [TypeError]; in
    both cases the grant has been sent and the field stays without a
    token. *)
Theorem grant_without_access_token (st : State) (body : JSON) :
  py_truthy (admin_user_access_token st) = false ->
  ok (server (trace st) (token_request self)) = true ->
  json (server (trace st) (token_request self)) = Ok body ->
  (forall fields,
     body = JObject fields -> assoc "access_token" fields = None ->
     _get_api_admin_oidc_token self st
     = (Raise (KeyError "access_token"), after st [token_request self]))
  /\ (match body with JObject _ => False | _ => True end ->
      _get_api_admin_oidc_token self st
      = (Raise TypeError, after st [token_request self])).
Proof.
  intros Hc Hok Hbody.
  assert (Hrun : _get_api_admin_oidc_token self st
                 = (tok <- lift (py_getitem body "access_token") ;;
                    set_token_field tok ;;; get_token_field)
                     (after st [token_request self])).
  { unfold _get_api_admin_oidc_token, bind at 1, get_token_field at 1.
    rewrite Hc. unfold bind at 1, send. rewrite Hok. cbn [negb].
    unfold bind at 1, lift at 1. now rewrite Hbody. }
  rewrite Hrun. unfold bind, lift. split.
  - intros fields Hb Hnone. rewrite Hb. cbn. now rewrite Hnone.
  - intros Hshape. destruct body; try reflexivity. contradiction.
Qed.

Lemma header_raises (st st' : State) (e : exn) :
  _get_api_admin_oidc_token self st = (Raise e, st') ->
  _get_authorization_header self st = (Raise e, st').
Proof. intros H. unfold _get_authorization_header, bind. now rewrite H. Qed.

(** X3.  When the accessor raises, every operation that needs the token raises
    the same exception and stops where the accessor stopped: no operation
    sends its own request without a token. *)
Theorem no_request_without_token (op : Operation) (st st' : State) (e : exn) :
  authenticated op = true ->
  _get_api_admin_oidc_token self st = (Raise e, st') ->
  perform self op st = st' /\ outcome self op st = Some e.
Proof.
  intros Hauth Hacc. pose proof (header_raises st st' e Hacc) as Hhdr.
  assert (Hid : forall id, _get_user_by_id self id st = (Raise e, st')).
  { intros id. unfold _get_user_by_id, bind at 1. now rewrite Hhdr. }
  assert (Hmail : forall m, _get_user_by_email self m st = (Raise e, st')).
  { intros m. unfold _get_user_by_email, bind at 1. now rewrite Hhdr. }
  destruct op as [m i|q|w|w|i]; cbn [perform outcome authenticated] in *.
  - assert (H : get_keycloak_user self m i st = (Raise e, st')).
    { unfold get_keycloak_user, bind at 1.
      destruct m as [m|]; cbn [truthy_str] in Hauth.
      - destruct (negb (String.eqb m "")).
        + now rewrite Hmail.
        + destruct i as [id|]; [|discriminate]. now rewrite Hid.
      - destruct i as [id|]; [|discriminate]. now rewrite Hid. }
    rewrite H. split; reflexivity.
  - assert (H : search_users self q st = (Raise e, st')).
    { unfold search_users, bind at 1. now rewrite Hhdr. }
    rewrite H. split; reflexivity.
  - assert (H : register_user self w st = (Raise e, st')).
    { unfold register_user, bind at 1. now rewrite Hhdr. }
    rewrite H. split; reflexivity.
  - assert (H : update_user self w st = (Raise e, st')).
    { unfold update_user, bind at 1. now rewrite Hhdr. }
    rewrite H. split; reflexivity.
  - assert (H : get_user_tokens self i st = (Raise e, st')).
    { unfold get_user_tokens, bind at 1. now rewrite Hacc. }
    rewrite H. split; reflexivity.
Qed.

End WithoutToken.

(** ** The token on every request *)

Section BearerToken.

Context {P : Platform}.

Variable self : KeycloakApiClient.

Variable t : JSON.

Hypothesis usable : py_truthy t = true.

Lemma sends_ret {A : Type} (a : A) : sends_with_token self t (ret a).
Proof.
  intros st Hst. split; [exact Hst|]. exists []. split; [apply issued_refl|constructor].
Qed.

Lemma sends_raise {A : Type} (e : exn) : sends_with_token self t (@raise A e).
Proof.
  intros st Hst. split; [exact Hst|]. exists []. split; [apply issued_refl|constructor].
Qed.

Lemma sends_lift {A : Type} (r : result A) : sends_with_token self t (lift r).
Proof.
  intros st Hst. split; [exact Hst|]. exists []. split; [apply issued_refl|constructor].
Qed.

Lemma sends_send (r : Request) :
  carries_token self t r -> sends_with_token self t (send r).
Proof.
  intros Hr st Hst. split; [exact Hst|]. exists [r]. split; [reflexivity|].
  now constructor.
Qed.

Lemma sends_bind {A B : Type} (c : M A) (k : A -> M B) :
  sends_with_token self t c -> (forall a, sends_with_token self t (k a)) ->
  sends_with_token self t (bind c k).
Proof.
  intros Hc Hk st Hst. unfold bind.
  destruct (Hc st Hst) as [Hf [l1 [Hi Hall]]].
  destruct (c st) as [[a|e] st1]; cbn [snd] in *.
  - destruct (Hk a st1 Hf) as [Hf2 [l2 [Hi2 Hall2]]].
    split; [exact Hf2|]. exists (l1 ++ l2)%list. split.
    + eapply issued_trans; eassumption.
    + apply Forall_app. now split.
  - split; [exact Hf|]. now exists l1.
Qed.

Lemma sends_after_accessor {B : Type} (k : JSON -> M B) :
  sends_with_token self t (k t) ->
  sends_with_token self t (bind (_get_api_admin_oidc_token self) k).
Proof.
  intros Hk st Hst. unfold bind.
  assert (Ht : py_truthy (admin_user_access_token st) = true) by now rewrite Hst.
  rewrite (token_cached self st Ht), Hst. exact (Hk st Hst).
Qed.

Lemma sends_after_header {B : Type} (k : string -> M B) :
  sends_with_token self t (k ("Bearer " ++ py_str t)) ->
  sends_with_token self t (bind (_get_authorization_header self) k).
Proof.
  intros Hk st Hst. unfold bind.
  assert (Ht : py_truthy (admin_user_access_token st) = true) by now rewrite Hst.
  rewrite (header_cached self st Ht), Hst. exact (Hk st Hst).
Qed.

Lemma sends_for_each {A : Type} (body : A -> M unit) (l : list A) :
  (forall x, sends_with_token self t (body x)) ->
  sends_with_token self t (for_each body l).
Proof.
  intros Hb. induction l as [|x rest IH]; cbn [for_each].
  - apply sends_ret.
  - apply sends_bind; [apply Hb | intros _; exact IH].
Qed.

Ltac step_sends :=
  first
    [ apply sends_ret | apply sends_raise | apply sends_lift
    | apply sends_after_header | apply sends_after_accessor
    | apply sends_send; first [ left; reflexivity | right; eexists; reflexivity ]
    | apply sends_for_each; intros ?
    | apply sends_bind; [ | intros ? ]
    | match goal with
      | |- sends_with_token _ _ (if ?b then _ else _) => destruct b
      | |- sends_with_token _ _ (match ?x with _ => _ end) => destruct x
      end ].

Ltac sends_all :=
  unfold requests_get, requests_post, requests_put; repeat step_sends.

Lemma sends_update_user_identities i l :
  sends_with_token self t (_update_user_identities self i l).
Proof.
  unfold _update_user_identities, _get_user_identities, update_identity. sends_all.
Qed.

Lemma sends_get_keycloak_user e i :
  sends_with_token self t (get_keycloak_user self e i).
Proof.
  unfold get_keycloak_user, _get_user_by_email, _get_user_by_id. sends_all.
Qed.

Lemma sends_register_user w : sends_with_token self t (register_user self w).
Proof.
  unfold register_user. apply sends_after_header. unfold requests_post.
  apply sends_bind; [apply sends_send; left; reflexivity|intros response].
  destruct (negb (ok response)); [repeat step_sends|].
  apply sends_bind; [apply sends_lift|intros location].
  apply sends_bind; [|intros _; sends_all].
  destruct (federated_identities w) as [[|x l]|]; try apply sends_ret.
  apply sends_bind; [apply sends_lift|intros id].
  apply sends_update_user_identities.
Qed.

Lemma sends_update_user w : sends_with_token self t (update_user self w).
Proof.
  unfold update_user. apply sends_after_header. unfold requests_put.
  apply sends_bind; [apply sends_send; left; reflexivity|intros response].
  destruct (negb (ok response)); [repeat step_sends|].
  destruct (federated_identities w) as [[|x l]|]; try apply sends_ret.
  apply sends_update_user_identities.
Qed.

End BearerToken.

Section BearerTokenOnEveryRequest.

Context {P : Platform}.

Variable self : KeycloakApiClient.

(** X4.  With a token in the field, every request that any public operation
    sends carries that token: as [Bearer] in its [Authorization] header
    or, for the token exchange, as the subject token of its form; and the
    operation leaves the token in the field. *)
Theorem requests_carry_the_token (op : Operation) (st : State) :
  py_truthy (admin_user_access_token st) = true ->
  admin_user_access_token (perform self op st) = admin_user_access_token st
  /\ exists new,
       issued st (perform self op st) new
       /\ Forall (carries_token self (admin_user_access_token st)) new.
Proof.
  intros Ht. set (t := admin_user_access_token st).
  assert (H : forall (A : Type) (c : M A),
             sends_with_token self t c ->
             admin_user_access_token (snd (c st)) = t /\
             exists new, issued st (snd (c st)) new /\ Forall (carries_token self t) new).
  { intros A c Hc. exact (Hc st eq_refl). }
  destruct op as [e i|q|w|w|i]; cbn [perform]; apply H.
  - now apply sends_get_keycloak_user.
  - unfold search_users, requests_get.
    apply (sends_after_header self t Ht).
    apply sends_bind; [apply sends_send; left; reflexivity|intros response].
    destruct (negb (ok response)); [apply sends_bind; [apply sends_lift|intros ?; apply sends_raise]|].
    apply sends_bind; [apply sends_lift|intros found].
    apply sends_bind; [apply sends_lift|intros items]. apply sends_lift.
  - now apply sends_register_user.
  - now apply sends_update_user.
  - unfold get_user_tokens.
    apply (sends_after_accessor self t Ht).
    apply sends_bind; [apply sends_send; right; eexists; reflexivity|intros response].
    destruct (negb (ok response)); [apply sends_bind; [apply sends_lift|intros ?; apply sends_raise]|].
    apply sends_bind; [apply sends_lift|intros data].
    apply sends_bind; [apply sends_lift|intros a].
    apply sends_bind; [apply sends_lift|intros r]. apply sends_ret.
Qed.

End BearerTokenOnEveryRequest.

(** ** Creating and updating a user *)

Section Writes.

Context {P : Platform}.

Variable self : KeycloakApiClient.

Lemma last_segment_from_no_slash (acc s : string) :
  no_slash s = true -> last_segment_from acc s = acc ++ s.
Proof.
  revert acc. induction s as [|c rest IH]; intros acc H; cbn in *.
  - clear H. induction acc as [|a acc IHa]; cbn; [reflexivity|now rewrite <- IHa].
  - apply andb_prop in H as [Hc Hrest]. apply negb_true_iff in Hc. rewrite Hc.
    rewrite (IH _ Hrest).
    clear. induction acc as [|a acc IHa]; cbn; [reflexivity|now rewrite IHa].
Qed.

(** [(prefix + '/' + s).split('/')[-1]] is [s] when [s] has no slash. *)
Lemma last_segment_of_path (prefix s : string) :
  no_slash s = true -> last_segment (prefix ++ "/" ++ s) = s.
Proof.
  intros H. unfold last_segment.
  assert (Hgen : forall acc, last_segment_from acc (prefix ++ "/" ++ s) = s).
  { induction prefix as [|c rest IH]; intros acc; cbn.
    - exact (last_segment_from_no_slash "" s H).
    - destruct (Ascii.eqb c "/"); apply IH. }
  apply Hgen.
Qed.

Lemma register_user_unfold (w : WriteKeycloakUser) (st st1 : State) (auth : string) :
  _get_authorization_header self st = (Ok auth, st1) ->
  let response := server (trace st1) (creation_request self w auth) in
  register_user self w st
  = ((if negb (ok response) then
        error_body <- lift (json response) ;;
        raise (KeycloakApiClientException
                 ("Error while creating user (msg: " ++ py_str error_body ++ ")"))
      else
        location <- lift (header_get "Location" (response_headers response)) ;;
        match federated_identities w with
        | Some (i :: l) =>
            id <- lift (UUID_ (last_segment location)) ;;
            _update_user_identities self (Some id) (i :: l)
        | _ => ret tt
        end ;;;
        id <- lift (UUID_ (last_segment location)) ;;
        ret id) (after st1 [creation_request self w auth])).
Proof.
  intros Hauth response. unfold register_user, bind at 1. rewrite Hauth.
  unfold bind at 1, requests_post, send. reflexivity.
Qed.

(** X5.  The id that [register_user] returns is the id the remote side put at
    the end of the [Location] of the created user: when the creation
    succeeds with the location [prefix/str(u)], the registration of a user
    without links returns [u] after that single request, and the
    registration of a user with links returns [u] when the reconciliation
    for [u] returns. *)
Theorem register_user_returns_the_located_id (w : WriteKeycloakUser)
    (st st1 : State) (auth prefix : string) (u : UUID) :
  _get_authorization_header self st = (Ok auth, st1) ->
  let response := server (trace st1) (creation_request self w auth) in
  let stop := after st1 [creation_request self w auth] in
  ok response = true ->
  header_get "Location" (response_headers response)
    = Ok (prefix ++ "/" ++ uuid_str u) ->
  no_slash (uuid_str u) = true ->
  uuid_parse (uuid_str u) = Some u ->
  (truthy_list (federated_identities w) = false ->
     register_user self w st = (Ok u, stop))
  /\ (forall i l st2,
        federated_identities w = Some (i :: l) ->
        _update_user_identities self (Some u) (i :: l) stop = (Ok tt, st2) ->
        register_user self w st = (Ok u, st2)).
Proof.
  intros Hauth response stop Hok Hloc Hslash Hparse. subst response stop.
  rewrite (register_user_unfold w st st1 auth Hauth). cbv zeta.
  rewrite Hok. cbn [negb]. unfold bind at 1, lift at 1. rewrite Hloc.
  rewrite (last_segment_of_path prefix (uuid_str u) Hslash).
  unfold UUID_. rewrite Hparse. split.
  - intros Hlinks. destruct (federated_identities w) as [[|i l]|]; try reflexivity.
    discriminate.
  - intros i l st2 Hlinks Hrec. rewrite Hlinks. unfold bind, lift.
    rewrite (last_segment_of_path prefix (uuid_str u) Hslash), Hparse.
    now rewrite Hrec.
Qed.

(** X6.  A creation that succeeded is not undone when its answer cannot be
    read: without a [Location] header [register_user] raises what the
    header lookup raises, and with a location whose last segment is no
    UUID it raises [ValueError], in both cases right after the creation
    request and, when there are links, before any identity is fetched. *)
Theorem register_user_unreadable_location (w : WriteKeycloakUser)
    (st st1 : State) (auth : string) :
  _get_authorization_header self st = (Ok auth, st1) ->
  let response := server (trace st1) (creation_request self w auth) in
  let stop := after st1 [creation_request self w auth] in
  ok response = true ->
  (forall e,
     header_get "Location" (response_headers response) = Raise e ->
     register_user self w st = (Raise e, stop))
  /\ (forall location,
        header_get "Location" (response_headers response) = Ok location ->
        uuid_parse (last_segment location) = None ->
        register_user self w st = (Raise ValueError, stop)).
Proof.
  intros Hauth response stop Hok. subst response stop.
  rewrite (register_user_unfold w st st1 auth Hauth). cbv zeta.
  rewrite Hok. cbn [negb]. unfold bind at 1, lift at 1. split.
  - intros e He. now rewrite He.
  - intros location Hloc Hparse. rewrite Hloc. cbv beta iota.
    unfold bind, lift, UUID_. rewrite Hparse.
    destruct (federated_identities w) as [[|i l]|]; reflexivity.
Qed.

(** X7.  [update_user] sends one PUT for the user's id.  A failure
    raises: the client's exception when the body of the failure is JSON,
    the error of decoding the body when it is not.  After a success, a
    request without links, or with an empty list of links, is done: no
    identity is fetched; a request with links goes on as the
    reconciliation for the id of the request. *)
Theorem update_user_outcomes (w : WriteKeycloakUser) (st st1 : State)
    (auth : string) :
  _get_authorization_header self st = (Ok auth, st1) ->
  let response := server (trace st1) (update_request self w auth) in
  let stop := after st1 [update_request self w auth] in
  (ok response = false ->
     (forall refusal,
        json response = Ok refusal ->
        exists msg,
          update_user self w st = (Raise (KeycloakApiClientException msg), stop))
     /\ (json_body response = None ->
         update_user self w st = (Raise JSONDecodeError, stop)))
  /\ (ok response = true -> truthy_list (federated_identities w) = false ->
      update_user self w st = (Ok tt, stop))
  /\ (ok response = true ->
      forall i l, federated_identities w = Some (i :: l) ->
        update_user self w st
        = _update_user_identities self (keycloak_id w) (i :: l) stop).
Proof.
  intros Hauth response stop.
  assert (Hrun : update_user self w st
                 = ((if negb (ok response) then
                       error_body <- lift (json response) ;;
                       raise (KeycloakApiClientException
                                ("Error while updating user (msg: "
                                   ++ py_str error_body ++ ")"))
                     else
                       match federated_identities w with
                       | Some (i :: l) =>
                           _update_user_identities self (keycloak_id w) (i :: l)
                       | _ => ret tt
                       end) stop)).
  { unfold update_user, bind at 1. rewrite Hauth.
    unfold bind at 1, requests_put, send. reflexivity. }
  rewrite Hrun. split; [|split].
  - intros Hbad. rewrite Hbad. cbn [negb]. unfold bind, lift, raise, json. split.
    + intros refusal Hbody. destruct (json_body response); [|discriminate].
      eexists. reflexivity.
    + now intros ->.
  - intros Hok Hlinks. rewrite Hok. cbn [negb].
    destruct (federated_identities w) as [[|i l]|]; try reflexivity. discriminate.
  - intros Hok i l Hlinks. now rewrite Hok, Hlinks.
Qed.

(** X8.  The payload has the seven fixed keys in their order, followed by
    [credentials] when a password is set and by nothing else; no key
    occurs twice; and each of the seven carries the value of the request
    untouched. *)
Theorem payload_has_the_fixed_fields (w : WriteKeycloakUser) :
  let payload := _get_user_endpoint_schema_data w in
  let fixed := ["username"; "firstName"; "lastName"; "email"; "enabled";
                "emailVerified"; "attributes"]%list in
  (map fst payload = fixed \/ map fst payload = (fixed ++ ["credentials"])%list)
  /\ NoDup (map fst payload)
  /\ assoc "username" payload = Some (username w)
  /\ assoc "firstName" payload = Some (first_name w)
  /\ assoc "lastName" payload = Some (last_name w)
  /\ assoc "email" payload = Some (email w)
  /\ assoc "enabled" payload = Some (enabled w)
  /\ assoc "emailVerified" payload = Some (email_verified w)
  /\ assoc "attributes" payload = Some (attributes w).
Proof.
  unfold _get_user_endpoint_schema_data. cbn zeta.
  destruct (raw_password w) as [raw|]; [destruct (negb (String.eqb raw ""))|];
    try destruct (hashed_password w) as [hashed|];
    try destruct (negb (String.eqb hashed ""));
    (split; [first [now left | now right]|]);
    (split; [repeat constructor; cbn; intros H;
             repeat (destruct H as [H|H]; [discriminate|]); exact H|]);
    repeat split; reflexivity.
Qed.

End Writes.

(** ** Reconciliation: the fetch and the happy path *)

Section Fetch.

Context {P : Platform}.

Variable self : KeycloakApiClient.

Lemma identities_by_provider_raises (before : list JSON) (item : JSON)
    (later : list JSON) (e : exn) (d : pydict) :
  Forall keyed before ->
  py_getitem item "identityProvider" = Raise e ->
  identities_by_provider (before ++ item :: later) d = Raise e.
Proof.
  intros Hb Hitem. revert d.
  induction Hb as [|b rest [k [Hk Hh]] _ IH]; intros d; cbn.
  - now rewrite Hitem.
  - rewrite Hk, Hh. apply IH.
Qed.

(** X9.  A reconciliation whose fetch goes wrong stops there, before any
    upsert: a failing answer raises the client's exception when its body
    is JSON and the error of decoding the body when it is not, an answer
    that cannot be iterated raises what the iteration raises, and an
    identity without [identityProvider] raises what its lookup raises,
    whatever the identities after it are. *)
Theorem failed_fetch_stops_reconciliation (keycloak_id : option UUID)
    (links : list KeycloakFederatedIdentity) (st st1 : State) (auth : string) :
  _get_authorization_header self st = (Ok auth, st1) ->
  let fetch := mkRequest GET (_get_identities_url self keycloak_id) NoBody
                 [("Authorization", auth)] in
  let response := server (trace st1) fetch in
  let stop := after st1 [fetch] in
  (ok response = false ->
     (forall refusal,
        json response = Ok refusal ->
        exists msg,
          _update_user_identities self keycloak_id links st
          = (Raise (KeycloakApiClientException msg), stop))
     /\ (json_body response = None ->
         _update_user_identities self keycloak_id links st
         = (Raise JSONDecodeError, stop)))
  /\ (ok response = true ->
      forall fetched e,
        json response = Ok fetched -> py_iter fetched = Raise e ->
        _update_user_identities self keycloak_id links st = (Raise e, stop))
  /\ (ok response = true ->
      forall before item later e,
        json response = Ok (JArray (before ++ item :: later)) ->
        Forall keyed before ->
        py_getitem item "identityProvider" = Raise e ->
        _update_user_identities self keycloak_id links st = (Raise e, stop)).
Proof.
  intros Hauth fetch response stop.
  assert (Hall : _update_user_identities self keycloak_id links st
                 = ((if negb (ok response) then
                       error_body <- lift (json response) ;;
                       raise (KeycloakApiClientException
                                ("Error while retrieving identities of user "
                                   ++ str_id keycloak_id
                                   ++ " (msg: " ++ py_str error_body ++ ")"))
                     else
                       fetched <- lift (json response) ;;
                       items <- lift (py_iter fetched) ;;
                       keycloak_identities <- lift (identities_by_provider items []) ;;
                       for_each (update_identity self keycloak_id keycloak_identities)
                         links) stop)).
  { unfold _update_user_identities, _get_user_identities, bind at 1 2.
    rewrite Hauth. unfold bind at 1 2, requests_get, send.
    fold fetch. fold response. fold stop.
    destruct (negb (ok response)).
    - unfold bind, lift, raise. now destruct (json response).
    - unfold bind at 1 4, lift at 1 4. now destruct (json response). }
  rewrite Hall. split; [|split].
  - intros Hbad. rewrite Hbad. cbn [negb]. unfold bind, lift, raise, json. split.
    + intros refusal Hbody. destruct (json_body response); [|discriminate].
      eexists. reflexivity.
    + now intros ->.
  - intros Hok fetched e Hbody Hiter. rewrite Hok. cbn [negb].
    unfold bind at 1, lift at 1. rewrite Hbody. unfold bind at 1, lift at 1.
    now rewrite Hiter.
  - intros Hok before item later e Hbody Hb Hitem. rewrite Hok. cbn [negb].
    unfold bind at 1, lift at 1. rewrite Hbody.
    unfold bind at 1, lift at 1. cbn [py_iter].
    unfold bind at 1, lift at 1.
    now rewrite (identities_by_provider_raises before item later e [] Hb Hitem).
Qed.


End Fetch.

(** ** Lookups and the search: what goes wrong, and how much is sent *)

Section LookupEdges.

Context {P : Platform}.

Variable self : KeycloakApiClient.

Lemma first_with_email_raises (email : string) (before : list JSON)
    (candidate : JSON) (later : list JSON) (e : exn) :
  Forall (other_email email) before ->
  py_getitem candidate "email" = Raise e ->
  first_with_email email (before ++ candidate :: later) = Raise e.
Proof.
  intros Hb Hc. induction Hb as [|c rest [m [Hm Hne]] _ IH]; cbn.
  - now rewrite Hc.
  - now rewrite Hm, (py_eq_str_false m email Hne).
Qed.

Lemma nonempty_app_cons {A : Type} (l1 : list A) (x : A) (l2 : list A) :
  Nat.eqb (List.length (l1 ++ x :: l2)) 0 = false.
Proof. rewrite length_app. cbn. apply Nat.eqb_neq. lia. Qed.

(** X11.  The search by email forgives nothing: a failing answer, a 404
    included, raises, the client's exception when its body is JSON and
    the error of decoding the body when it is not; and a candidate
    without an [email] that is reached before any match raises what its
    lookup raises, whatever comes after it. *)
Theorem lookup_by_email_errors (email : string) (st st1 : State) (auth : string) :
  _get_authorization_header self st = (Ok auth, st1) ->
  let response := server (trace st1) (email_request self email auth) in
  let stop := after st1 [email_request self email auth] in
  (ok response = false ->
     (forall refusal,
        json response = Ok refusal ->
        exists msg,
          _get_user_by_email self email st
          = (Raise (KeycloakApiClientException msg), stop))
     /\ (json_body response = None ->
         _get_user_by_email self email st = (Raise JSONDecodeError, stop)))
  /\ (status_code response = 404%Z -> ok response = false)
  /\ (ok response = true ->
      forall before candidate later e,
        json response = Ok (JArray (before ++ candidate :: later)) ->
        Forall (other_email email) before ->
        py_getitem candidate "email" = Raise e ->
        _get_user_by_email self email st = (Raise e, stop)).
Proof.
  intros Hauth response stop. split; [|split].
  - intros Hbad.
    assert (Hrun : _get_user_by_email self email st
                   = ((error_body <- lift (json response) ;;
                       raise (KeycloakApiClientException
                                ("Error while retrieving user with email " ++ email
                                   ++ " (msg: " ++ py_str error_body ++ ")"))) stop)).
    { unfold _get_user_by_email, bind at 1. rewrite Hauth.
      unfold bind at 1, requests_get, send.
      fold (email_request self email auth). fold response. now rewrite Hbad. }
    rewrite Hrun. unfold bind, lift, raise, json. split.
    + intros refusal Hbody. destruct (json_body response); [|discriminate].
      eexists. reflexivity.
    + now intros ->.
  - intros H404. unfold ok. now rewrite H404.
  - intros Hok before candidate later e Hbody Hb Hc.
    rewrite (get_user_by_email_unfold self email st st1 auth Hauth Hok
               (before ++ candidate :: later) Hbody).
    rewrite (first_with_email_raises email before candidate later e Hb Hc).
    now destruct before.
Qed.

Lemma item_with_key_is_truthy (j : JSON) (key : string) (v : JSON) :
  py_getitem j key = Ok v -> py_truthy j = true.
Proof.
  destruct j as [| | | | |fields]; cbn; try discriminate.
  destruct fields; [discriminate|reflexivity].
Qed.

(** X12.  [get_keycloak_user] with an email hands the first exact match to the
    factory and returns its record: a matching candidate is never taken
    for no user.  When every candidate carries another email it returns
    [None] without calling the factory. *)
Theorem get_user_by_email_translates_the_match (email : string)
    (keycloak_id : option UUID) (st st1 : State) (auth : string)
    (candidates : list JSON) :
  email <> "" ->
  _get_authorization_header self st = (Ok auth, st1) ->
  ok (server (trace st1) (email_request self email auth)) = true ->
  json (server (trace st1) (email_request self email auth))
    = Ok (JArray candidates) ->
  let stop := after st1 [email_request self email auth] in
  (Forall (other_email email) candidates ->
     get_keycloak_user self (Some email) keycloak_id st = (Ok None, stop))
  /\ (forall before user later,
        candidates = (before ++ user :: later)%list ->
        Forall (other_email email) before ->
        py_getitem user "email" = Ok (JString email) ->
        get_keycloak_user self (Some email) keycloak_id st
        = (match read_keycloak_user_factory user with
           | Ok record => Ok (Some record)
           | Raise e => Raise e
           end, stop)).
Proof.
  intros He Hauth Hok Hbody stop.
  rewrite (get_keycloak_user_by_email self email keycloak_id st He).
  unfold bind.
  rewrite (get_user_by_email_unfold self email st st1 auth Hauth Hok candidates Hbody).
  fold stop. split.
  - intros Hall. rewrite (first_with_email_none email candidates Hall).
    now destruct candidates.
  - intros before user later -> Hb Hu.
    rewrite (first_with_email_found email before user later Hb Hu).
    assert (Hrun : match (before ++ user :: later)%list with
                   | [] => Ok JNull
                   | _ :: _ => Ok user
                   end = Ok user) by now destruct before.
    rewrite Hrun. unfold lift, translated.
    now rewrite (item_with_key_is_truthy user "email" (JString email) Hu).
Qed.

Lemma comprehension_raises {A B : Type} (f : A -> result B) (before : list A)
    (x : A) (later : list A) (e : exn) :
  Forall (fun b => exists y, f b = Ok y) before ->
  f x = Raise e ->
  comprehension f (before ++ x :: later) = Raise e.
Proof.
  intros Hb Hx. induction Hb as [|b rest [y Hy] _ IH]; cbn.
  - now rewrite Hx.
  - now rewrite Hy, IH.
Qed.

(** X13.  A search returns all records or none: when the factory raises on a
    candidate and succeeds on those before it, [search_users] raises that
    exception, whatever the later candidates are. *)
Theorem search_users_is_all_or_nothing (query : string) (st st1 : State)
    (auth : string) (before : list JSON) (candidate : JSON) (later : list JSON)
    (e : exn) :
  _get_authorization_header self st = (Ok auth, st1) ->
  ok (server (trace st1) (search_request self query auth)) = true ->
  json (server (trace st1) (search_request self query auth))
    = Ok (JArray (before ++ candidate :: later)) ->
  Forall (fun b => exists record, read_keycloak_user_factory b = Ok record) before ->
  read_keycloak_user_factory candidate = Raise e ->
  search_users self query st = (Raise e, after st1 [search_request self query auth]).
Proof.
  intros Hauth Hok Hbody Hb Hc.
  unfold search_users, bind at 1. rewrite Hauth.
  unfold bind at 1, requests_get, send. fold (search_request self query auth).
  rewrite Hok. cbn [negb]. unfold bind, lift. rewrite Hbody.
  cbn [py_iter].
  now rewrite (comprehension_raises read_keycloak_user_factory before candidate later e
                 Hb Hc).
Qed.

(** X14.  A successful token exchange whose body lacks one of the two tokens
    raises [KeyError] for the missing key, [access_token] being looked
    up first; the exchange has been sent. *)
Theorem user_tokens_need_both_fields (id : UUID) (st st1 : State) (t : JSON)
    (fields : list (string * JSON)) :
  _get_api_admin_oidc_token self st = (Ok t, st1) ->
  ok (server (trace st1) (exchange_request self id t)) = true ->
  json (server (trace st1) (exchange_request self id t)) = Ok (JObject fields) ->
  let stop := after st1 [exchange_request self id t] in
  (assoc "access_token" fields = None ->
     get_user_tokens self id st = (Raise (KeyError "access_token"), stop))
  /\ (forall a, assoc "access_token" fields = Some a ->
        assoc "refresh_token" fields = None ->
        get_user_tokens self id st = (Raise (KeyError "refresh_token"), stop)).
Proof.
  intros Hacc Hok Hbody stop.
  rewrite (get_user_tokens_unfold self id st st1 t Hacc). cbv zeta.
  rewrite Hok, Hbody. cbn [negb]. unfold bind, lift, py_getitem. split.
  - intros Ha. now rewrite Ha.
  - intros a Ha Hr. now rewrite Ha, Hr.
Qed.

End LookupEdges.

(** ** One call, one request *)

Section SingleRequest.

Context {P : Platform}.

Variable self : KeycloakApiClient.

Lemma one_request_by_email (email : string) (st : State) :
  py_truthy (admin_user_access_token st) = true ->
  snd (_get_user_by_email self email st)
  = after st [email_request self email
                ("Bearer " ++ py_str (admin_user_access_token st))].
Proof.
  intros Ht. unfold _get_user_by_email, bind at 1. rewrite (header_cached self st Ht).
  unfold bind at 1, requests_get, send, email_request, after.
  generalize (server (trace st)
                (mkRequest GET (_get_users_url self ++ "?email=" ++ quote email) NoBody
                   [("Authorization",
                     "Bearer " ++ py_str (admin_user_access_token st))])).
  intros response. unfold bind, lift, ret, raise.
  destruct (negb (ok response)); [now destruct (json response)|].
  destruct (json response) as [candidates|e]; [|reflexivity].
  destruct (py_len candidates) as [n|e]; [|reflexivity].
  destruct (Nat.eqb n 0); [reflexivity|].
  destruct (py_iter candidates) as [users|e]; [|reflexivity].
  now destruct (first_with_email email users).
Qed.

Lemma one_request_by_id (id : UUID) (st : State) :
  py_truthy (admin_user_access_token st) = true ->
  snd (_get_user_by_id self id st)
  = after st [id_request self id
                ("Bearer " ++ py_str (admin_user_access_token st))].
Proof.
  intros Ht. unfold _get_user_by_id, bind at 1. rewrite (header_cached self st Ht).
  unfold bind at 1, requests_get, send, id_request, after.
  destruct (Z.eqb _ NOT_FOUND); [reflexivity|].
  unfold bind, lift, raise.
  destruct (negb (ok _)); now destruct (json _).
Qed.

Lemma translation_keeps_state (c : M JSON) (st : State) :
  snd ((user_data <- c ;; lift (translated user_data)) st) = snd (c st).
Proof. unfold bind, lift. now destruct (c st) as [[j|e] st1]. Qed.

(** X15.  With a token in the field, an operation that is not followed by a
    reconciliation sends exactly one request, whatever the answer is: a
    failure is not tried again, and nothing is asked a second time. *)
Theorem one_call_one_request (op : Operation) (st : State) (r : Request) :
  py_truthy (admin_user_access_token st) = true ->
  sole_request self (admin_user_access_token st) op = Some r ->
  perform self op st = after st [r].
Proof.
  intros Ht Hr. destruct op as [e i|q|w|w|i]; cbn [perform sole_request] in *.
  - destruct e as [mail|].
    + destruct (negb (String.eqb mail "")) eqn:He.
      * injection Hr as <-. apply negb_true_iff, String.eqb_neq in He.
        rewrite (get_keycloak_user_by_email self mail i st He),
          translation_keeps_state.
        now apply one_request_by_email.
      * apply negb_false_iff, String.eqb_eq in He. subst mail.
        destruct i as [id|]; [|discriminate]. injection Hr as <-.
        change (get_keycloak_user self (Some "") (Some id) st)
          with (get_keycloak_user self None (Some id) st).
        rewrite (get_keycloak_user_by_id self id st), translation_keeps_state.
        now apply one_request_by_id.
    + destruct i as [id|]; [|discriminate]. injection Hr as <-.
      rewrite (get_keycloak_user_by_id self id st), translation_keeps_state.
      now apply one_request_by_id.
  - injection Hr as <-. unfold search_users, bind at 1.
    rewrite (header_cached self st Ht).
    unfold bind at 1, requests_get, send, search_request, after.
    unfold bind, lift, raise.
    destruct (negb (ok _)); [now destruct (json _)|].
    destruct (json _) as [found|e]; [|reflexivity].
    destruct (py_iter found); [|reflexivity].
    now destruct (comprehension _ _).
  - destruct (truthy_list (federated_identities w)) eqn:Hl; [discriminate|].
    injection Hr as <-.
    rewrite (register_user_unfold self w st st _ (header_cached self st Ht)).
    cbv zeta. unfold bind, lift, ret, raise.
    destruct (negb (ok _)); [now destruct (json _)|].
    destruct (header_get _ _); [|reflexivity].
    destruct (federated_identities w) as [[|x l]|]; try discriminate;
      now destruct (UUID_ _).
  - destruct (truthy_list (federated_identities w)) eqn:Hl; [discriminate|].
    injection Hr as <-. unfold update_user, bind at 1.
    rewrite (header_cached self st Ht).
    unfold bind at 1, requests_put, send, update_request, after.
    destruct (negb (ok _)); [unfold bind, lift, raise; now destruct (json _)|].
    destruct (federated_identities w) as [[|x l]|]; try discriminate; reflexivity.
  - injection Hr as <-.
    rewrite (get_user_tokens_unfold self i st st _ (token_cached self st Ht)).
    cbv zeta. unfold bind, lift, ret, raise.
    destruct (negb (ok _)); [now destruct (json _)|].
    destruct (json _) as [data|e]; [|reflexivity].
    destruct (py_getitem data "access_token"); [|reflexivity].
    now destruct (py_getitem data "refresh_token").
Qed.

End SingleRequest.

(** ** The further properties at work on the concrete platform *)

Lemma refused_grant_is_asked_again_witness :
  trace (snd (_get_api_admin_oidc_token (P := Demo.refusing) Demo.self
                (after fresh [token_request Demo.self])))
  = [token_request Demo.self; token_request Demo.self].
Proof.
  apply (proj2 (proj2 (refused_grant_is_asked_again (P := Demo.refusing) Demo.self
                         fresh eq_refl eq_refl))).
Defined.

Lemma grant_without_access_token_witness :
  _get_api_admin_oidc_token (P := Demo.platform [Demo.tokenless]) Demo.self fresh
  = (Raise (KeyError "access_token"), Demo.refused).
Proof.
  apply (proj1 (grant_without_access_token (P := Demo.platform [Demo.tokenless])
                  Demo.self fresh (JObject [("token_type", JString "bearer")])
                  eq_refl eq_refl eq_refl)
           [("token_type", JString "bearer")]); reflexivity.
Defined.

Lemma no_request_without_token_witness :
  perform (P := Demo.refusing) Demo.self (SearchUsers (P := Demo.refusing) "bob") fresh
  = Demo.refused
  /\ outcome (P := Demo.refusing) Demo.self (SearchUsers (P := Demo.refusing) "bob")
       fresh
     = Some (KeycloakApiClientException
               "Error while obtaining api-admin access_token (msg: <json>)").
Proof.
  apply (no_request_without_token (P := Demo.refusing) Demo.self
           (SearchUsers (P := Demo.refusing) "bob") fresh Demo.refused
           (KeycloakApiClientException
              "Error while obtaining api-admin access_token (msg: <json>)"));
    reflexivity.
Defined.

Lemma requests_carry_the_token_witness :
  admin_user_access_token
    (perform (P := Demo.updating) Demo.self
       (UpdateUser (P := Demo.updating)
          (Demo.writing None None (Some [Demo.google]))) Demo.granted)
  = JString "tok"
  /\ exists new,
       issued Demo.granted
         (perform (P := Demo.updating) Demo.self
            (UpdateUser (P := Demo.updating)
               (Demo.writing None None (Some [Demo.google]))) Demo.granted) new
       /\ Forall (carries_token (P := Demo.updating) Demo.self (JString "tok")) new.
Proof.
  apply (requests_carry_the_token (P := Demo.updating) Demo.self
           (UpdateUser (P := Demo.updating)
              (Demo.writing None None (Some [Demo.google]))) Demo.granted).
  reflexivity.
Defined.

Lemma register_user_returns_the_located_id_witness :
  register_user (P := Demo.answering Demo.created) Demo.self
    (Demo.writing None None None) fresh
  = (Ok "u-42",
     after Demo.granted
       [creation_request (P := Demo.answering Demo.created) Demo.self
          (Demo.writing None None None) Demo.bearer]).
Proof.
  apply (proj1 (register_user_returns_the_located_id
                  (P := Demo.answering Demo.created) Demo.self
                  (Demo.writing None None None) fresh Demo.granted Demo.bearer
                  "http://kc/auth/admin/realms/demo/users" "u-42"
                  eq_refl eq_refl eq_refl eq_refl eq_refl)).
  reflexivity.
Defined.

Lemma register_user_unreadable_location_witness :
  register_user (P := Demo.answering Demo.created_nowhere) Demo.self
    (Demo.writing None None (Some [Demo.google])) fresh
  = (Raise (KeyError "location"),
     after Demo.granted
       [creation_request (P := Demo.answering Demo.created_nowhere) Demo.self
          (Demo.writing None None (Some [Demo.google])) Demo.bearer])
  /\ register_user (P := Demo.answering Demo.created_without_id) Demo.self
       (Demo.writing None None (Some [Demo.google])) fresh
     = (Raise ValueError,
        after Demo.granted
          [creation_request (P := Demo.answering Demo.created_without_id) Demo.self
             (Demo.writing None None (Some [Demo.google])) Demo.bearer]).
Proof.
  split.
  - apply (proj1 (register_user_unreadable_location
                    (P := Demo.answering Demo.created_nowhere) Demo.self
                    (Demo.writing None None (Some [Demo.google])) fresh Demo.granted
                    Demo.bearer eq_refl eq_refl)).
    reflexivity.
  - apply (proj2 (register_user_unreadable_location
                    (P := Demo.answering Demo.created_without_id) Demo.self
                    (Demo.writing None None (Some [Demo.google])) fresh Demo.granted
                    Demo.bearer eq_refl eq_refl)
             "http://kc/auth/admin/realms/demo/users/"); reflexivity.
Defined.

Lemma update_user_outcomes_witness :
  (exists msg,
     update_user (P := Demo.answering Demo.internal_error) Demo.self
       (Demo.writing None None None) fresh
     = (Raise (KeycloakApiClientException msg),
        after Demo.granted
          [update_request (P := Demo.answering Demo.internal_error) Demo.self
             (Demo.writing None None None) Demo.bearer]))
  /\ update_user (P := Demo.answering Demo.bad_gateway) Demo.self
       (Demo.writing None None None) fresh
     = (Raise JSONDecodeError,
        after Demo.granted
          [update_request (P := Demo.answering Demo.bad_gateway) Demo.self
             (Demo.writing None None None) Demo.bearer])
  /\ update_user (P := Demo.answering Demo.no_content) Demo.self
       (Demo.writing None None (Some [])) fresh
     = (Ok tt,
        after Demo.granted
          [update_request (P := Demo.answering Demo.no_content) Demo.self
             (Demo.writing None None (Some [])) Demo.bearer]).
Proof.
  split; [|split].
  - apply (proj1 (proj1 (update_user_outcomes (P := Demo.answering Demo.internal_error)
                           Demo.self (Demo.writing None None None) fresh Demo.granted
                           Demo.bearer eq_refl) eq_refl) JNull).
    reflexivity.
  - apply (proj2 (proj1 (update_user_outcomes (P := Demo.answering Demo.bad_gateway)
                           Demo.self (Demo.writing None None None) fresh Demo.granted
                           Demo.bearer eq_refl) eq_refl)).
    reflexivity.
  - apply (proj1 (proj2 (update_user_outcomes (P := Demo.answering Demo.no_content)
                    Demo.self (Demo.writing None None (Some [])) fresh Demo.granted
                    Demo.bearer eq_refl))); reflexivity.
Defined.

Lemma failed_fetch_stops_reconciliation_witness :
  (exists msg,
     _update_user_identities (P := Demo.answering Demo.internal_error) Demo.self
       (Some "u-1") [Demo.google] fresh
     = (Raise (KeycloakApiClientException msg),
        after Demo.granted
          [identities_request (P := Demo.answering Demo.internal_error) Demo.self
             (Some "u-1") Demo.granted]))
  /\ _update_user_identities (P := Demo.answering Demo.bad_gateway) Demo.self
       (Some "u-1") [Demo.google] fresh
     = (Raise JSONDecodeError,
        after Demo.granted
          [identities_request (P := Demo.answering Demo.bad_gateway) Demo.self
             (Some "u-1") Demo.granted])
  /\ _update_user_identities
       (P := Demo.answering (Demo.found (JArray [Demo.anonymous]))) Demo.self
       (Some "u-1") [Demo.google] fresh
     = (Raise (KeyError "identityProvider"),
        after Demo.granted
          [identities_request
             (P := Demo.answering (Demo.found (JArray [Demo.anonymous]))) Demo.self
             (Some "u-1") Demo.granted]).
Proof.
  split; [|split].
  - apply (proj1 (proj1 (failed_fetch_stops_reconciliation
                    (P := Demo.answering Demo.internal_error) Demo.self
                    (Some "u-1") [Demo.google] fresh Demo.granted Demo.bearer eq_refl)
                    eq_refl) JNull).
    reflexivity.
  - apply (proj2 (proj1 (failed_fetch_stops_reconciliation
                    (P := Demo.answering Demo.bad_gateway) Demo.self
                    (Some "u-1") [Demo.google] fresh Demo.granted Demo.bearer eq_refl)
                    eq_refl)).
    reflexivity.
  - apply (proj2 (proj2 (failed_fetch_stops_reconciliation
                    (P := Demo.answering (Demo.found (JArray [Demo.anonymous])))
                    Demo.self (Some "u-1") [Demo.google] fresh Demo.granted
                    Demo.bearer eq_refl))
             eq_refl [] Demo.anonymous [] (KeyError "identityProvider"));
      [reflexivity|constructor|reflexivity].
Defined.


Lemma lookup_by_email_errors_witness :
  (exists msg,
     _get_user_by_email (P := Demo.answering Demo.not_found) Demo.self "a@x.com" fresh
     = (Raise (KeycloakApiClientException msg),
        after Demo.granted
          [email_request (P := Demo.answering Demo.not_found) Demo.self "a@x.com"
             Demo.bearer]))
  /\ _get_user_by_email (P := Demo.answering Demo.bad_gateway) Demo.self "a@x.com"
       fresh
     = (Raise JSONDecodeError,
        after Demo.granted
          [email_request (P := Demo.answering Demo.bad_gateway) Demo.self "a@x.com"
             Demo.bearer])
  /\ _get_user_by_email
       (P := Demo.answering (Demo.found (JArray [Demo.anonymous; Demo.user "a@x.com"])))
       Demo.self "a@x.com" fresh
     = (Raise (KeyError "email"),
        after Demo.granted
          [email_request
             (P := Demo.answering
                     (Demo.found (JArray [Demo.anonymous; Demo.user "a@x.com"])))
             Demo.self "a@x.com" Demo.bearer]).
Proof.
  split; [|split].
  - apply (proj1 (proj1 (lookup_by_email_errors (P := Demo.answering Demo.not_found)
                           Demo.self "a@x.com" fresh Demo.granted Demo.bearer eq_refl)
                    eq_refl) JNull).
    reflexivity.
  - apply (proj2 (proj1 (lookup_by_email_errors (P := Demo.answering Demo.bad_gateway)
                           Demo.self "a@x.com" fresh Demo.granted Demo.bearer eq_refl)
                    eq_refl)).
    reflexivity.
  - apply (proj2 (proj2 (lookup_by_email_errors
                    (P := Demo.answering
                            (Demo.found (JArray [Demo.anonymous; Demo.user "a@x.com"])))
                    Demo.self "a@x.com" fresh Demo.granted Demo.bearer eq_refl))
             eq_refl [] Demo.anonymous [Demo.user "a@x.com"] (KeyError "email"));
      [reflexivity|constructor|reflexivity].
Defined.

Lemma get_user_by_email_translates_the_match_witness :
  get_keycloak_user
    (P := Demo.answering (Demo.found (JArray [Demo.user "b@x.com"; Demo.user "a@x.com"])))
    Demo.self (Some "a@x.com") None fresh
  = (Ok (Some (Demo.user "a@x.com")),
     after Demo.granted
       [email_request
          (P := Demo.answering
                  (Demo.found (JArray [Demo.user "b@x.com"; Demo.user "a@x.com"])))
          Demo.self "a@x.com" Demo.bearer]).
Proof.
  apply (proj2 (get_user_by_email_translates_the_match
                  (P := Demo.answering
                          (Demo.found (JArray [Demo.user "b@x.com"; Demo.user "a@x.com"])))
                  Demo.self "a@x.com" None fresh Demo.granted Demo.bearer
                  [Demo.user "b@x.com"; Demo.user "a@x.com"]
                  ltac:(discriminate) eq_refl eq_refl eq_refl)
           [Demo.user "b@x.com"] (Demo.user "a@x.com") []).
  - reflexivity.
  - repeat constructor. exists (JString "b@x.com"). split; [reflexivity|discriminate].
  - reflexivity.
Defined.

Lemma one_call_one_request_witness :
  perform (P := Demo.granting) Demo.self (GetUserTokens (P := Demo.granting) "u-1")
    Demo.granted
  = after Demo.granted
      [exchange_request (P := Demo.granting) Demo.self "u-1" (JString "tok")].
Proof.
  apply (one_call_one_request (P := Demo.granting) Demo.self
           (GetUserTokens (P := Demo.granting) "u-1") Demo.granted); reflexivity.
Defined.

Lemma user_tokens_need_both_fields_witness :
  get_user_tokens
    (P := Demo.answering (Demo.found (JObject [("access_token", JString "a")])))
    Demo.self "u-1" fresh
  = (Raise (KeyError "refresh_token"),
     after Demo.granted
       [exchange_request
          (P := Demo.answering (Demo.found (JObject [("access_token", JString "a")])))
          Demo.self "u-1" (JString "tok")]).
Proof.
  apply (proj2 (user_tokens_need_both_fields
                  (P := Demo.answering
                          (Demo.found (JObject [("access_token", JString "a")])))
                  Demo.self "u-1" fresh Demo.granted (JString "tok")
                  [("access_token", JString "a")] eq_refl eq_refl eq_refl)
           (JString "a")); reflexivity.
Defined.

Lemma search_users_is_all_or_nothing_witness :
  search_users
    (P := Demo.strict
            [Demo.token_response;
             Demo.found (JArray [Demo.user "a@x.com";
                                 JObject [("email", JString "b@x.com")];
                                 Demo.user "c@x.com"])])
    Demo.self "x.com" fresh
  = (Raise (KeyError "id"),
     after Demo.granted
       [search_request
          (P := Demo.strict
                  [Demo.token_response;
                   Demo.found (JArray [Demo.user "a@x.com";
                                       JObject [("email", JString "b@x.com")];
                                       Demo.user "c@x.com"])])
          Demo.self "x.com" Demo.bearer]).
Proof.
  apply (search_users_is_all_or_nothing
           (P := Demo.strict
                   [Demo.token_response;
                    Demo.found (JArray [Demo.user "a@x.com";
                                        JObject [("email", JString "b@x.com")];
                                        Demo.user "c@x.com"])])
           Demo.self "x.com" fresh Demo.granted Demo.bearer
           [Demo.user "a@x.com"] (JObject [("email", JString "b@x.com")])
           [Demo.user "c@x.com"] (KeyError "id") eq_refl eq_refl eq_refl).
  - repeat constructor. exists (Demo.user "a@x.com"). reflexivity.
  - reflexivity.
Defined.

(** ** Two more edges of the public operations *)

Section Edges.

Context {P : Platform}.

Variable self : KeycloakApiClient.

(** X16.  A creation that is refused raises right after the creation
    request, the client's exception when the body of the refusal is JSON
    and the error of decoding the body when it is not: the links of the
    request, if any, are not looked at and no identity is fetched. *)
Theorem refused_creation_stops_registration (w : WriteKeycloakUser)
    (st st1 : State) (auth : string) :
  _get_authorization_header self st = (Ok auth, st1) ->
  let response := server (trace st1) (creation_request self w auth) in
  let stop := after st1 [creation_request self w auth] in
  ok response = false ->
  (forall refusal,
     json response = Ok refusal ->
     exists msg,
       register_user self w st = (Raise (KeycloakApiClientException msg), stop))
  /\ (json_body response = None ->
      register_user self w st = (Raise JSONDecodeError, stop)).
Proof.
  intros Hauth response stop Hbad.
  rewrite (register_user_unfold self w st st1 auth Hauth).
  cbv zeta. fold response stop. rewrite Hbad. cbn [negb].
  unfold bind, lift, raise, json. split.
  - intros refusal Hbody. destruct (json_body response); [|discriminate].
    eexists. reflexivity.
  - now intros ->.
Qed.

(** X17.  A lookup by id that is answered with success but with a false value
    (an empty record, [null], an empty list) gives [None], and the
    factory is not called. *)
Theorem empty_record_is_no_user (id : UUID) (st st1 : State) (auth : string)
    (record : JSON) :
  _get_authorization_header self st = (Ok auth, st1) ->
  ok (server (trace st1) (id_request self id auth)) = true ->
  json (server (trace st1) (id_request self id auth)) = Ok record ->
  py_truthy record = false ->
  get_keycloak_user self None (Some id) st
  = (Ok None, after st1 [id_request self id auth]).
Proof.
  intros Hauth Hok Hbody Hempty.
  rewrite (get_keycloak_user_by_id self id st). unfold bind at 1.
  assert (Hrun : _get_user_by_id self id st
                 = (Ok record, after st1 [id_request self id auth])).
  { unfold _get_user_by_id, bind at 1. rewrite Hauth.
    unfold bind, requests_get, send. fold (id_request self id auth).
    rewrite (ok_is_not_404 _ Hok), Hok. cbn [negb]. unfold lift. now rewrite Hbody. }
  rewrite Hrun. unfold lift, translated. now rewrite Hempty.
Qed.

End Edges.

Lemma refused_creation_stops_registration_witness :
  (exists msg,
     register_user (P := Demo.answering Demo.internal_error) Demo.self
       (Demo.writing (Some "secret") None (Some [Demo.google])) fresh
     = (Raise (KeycloakApiClientException msg),
        after Demo.granted
          [creation_request (P := Demo.answering Demo.internal_error) Demo.self
             (Demo.writing (Some "secret") None (Some [Demo.google])) Demo.bearer]))
  /\ register_user (P := Demo.answering Demo.bad_gateway) Demo.self
       (Demo.writing (Some "secret") None (Some [Demo.google])) fresh
     = (Raise JSONDecodeError,
        after Demo.granted
          [creation_request (P := Demo.answering Demo.bad_gateway) Demo.self
             (Demo.writing (Some "secret") None (Some [Demo.google])) Demo.bearer]).
Proof.
  split.
  - apply (proj1 (refused_creation_stops_registration
                    (P := Demo.answering Demo.internal_error) Demo.self
                    (Demo.writing (Some "secret") None (Some [Demo.google])) fresh
                    Demo.granted Demo.bearer eq_refl eq_refl) JNull).
    reflexivity.
  - apply (proj2 (refused_creation_stops_registration
                    (P := Demo.answering Demo.bad_gateway) Demo.self
                    (Demo.writing (Some "secret") None (Some [Demo.google])) fresh
                    Demo.granted Demo.bearer eq_refl eq_refl)).
    reflexivity.
Defined.

Lemma empty_record_is_no_user_witness :
  get_keycloak_user (P := Demo.answering (Demo.found (JObject []))) Demo.self None
    (Some "u-1") fresh
  = (Ok None,
     after Demo.granted
       [id_request (P := Demo.answering (Demo.found (JObject []))) Demo.self "u-1"
          Demo.bearer]).
Proof.
  apply (empty_record_is_no_user (P := Demo.answering (Demo.found (JObject [])))
           Demo.self "u-1" fresh Demo.granted Demo.bearer (JObject []));
    reflexivity.
Defined.

(** ** Failures whose body is no JSON

    Every method formats [response.json()] into the message of the
    exception it is about to raise.  When the body of a failing answer is
    no JSON, decoding it raises first, and the method ends with the
    decoding error instead of the client's exception. *)




